(** * Dental clinic booking backend: a shallow embedding and its properties

    The two deployments of the service, [backend/index.js] (a standalone
    server) and [backend/api/index.js] (a serverless function), share their
    route handlers almost verbatim.  They are embedded once, parameterised
    by a [Deployment].

    Modelling conventions.
    - JavaScript strings are [string]s; the relational operators on strings
      are the code-unit-wise lexicographic comparison of ECMAScript.
    - [req.body] is a JSON object whose members are strings: a finite map
      from member names to strings.  Destructuring a member that is absent
      yields [undefined], here [None].
    - The MongoDB collections are lists in insertion order.  An [ObjectId] is
      represented by its canonical spelling.  A request carries [doctorId] as
      a string, which Mongoose casts to an [ObjectId] wherever the schema
      asks for one; the cast fails on a string that spells no identifier,
      and two spellings of one identifier cast to the same [ObjectId].  The
      document identifiers of users and appointments are never read by the
      handlers and are left out.
    - Requests are served one after another: a handler runs to its response
      before the next one starts.
    - The connection is up ([mongoose.connect] has resolved) and the store
      answers every query.  The exceptions that then reach a handler's
      [catch] come from [bcryptjs], which rejects [undefined] where it
      expects a string, and from Mongoose, which rejects a [doctorId] that
      does not cast to an [ObjectId].
    - [preloadDoctors], which the bootstrap starts once the connection is
      up, is an operation of its own next to the routes.
    - What the handlers take from their surroundings is explicit: the salt
      drawn by [bcrypt.hash], the clock read by [Date.now] and the fresh
      identifiers given out by [insertMany] are fields of [Env]; the
      functions [bcrypt.hash], [bcrypt.compare],
      [Date.prototype.toLocaleDateString] and Mongoose's cast to [ObjectId]
      are section variables. *)

From stdpp Require Import base option list strings gmap sorting.
From Stdlib Require Import ZArith NArith Ascii String Lia.

Open Scope string_scope.
Open Scope Z_scope.

(** ** JavaScript values *)

(** [a < b] on two strings (ECMAScript IsLessThan): a proper prefix is
    smaller, otherwise the first differing code unit decides. *)
Fixpoint js_lt (a b : string) : bool :=
  match a, b with
  | _, EmptyString => false
  | EmptyString, String _ _ => true
  | String x a', String y b' =>
      if (Ascii.N_of_ascii x <? Ascii.N_of_ascii y)%N then true
      else if (Ascii.N_of_ascii y <? Ascii.N_of_ascii x)%N then false
      else js_lt a' b'
  end.

(** [a >= b] is "not [a < b]"; [a <= b] is "not [b < a]". *)
Definition js_ge (a b : string) : bool := negb (js_lt a b).
Definition js_le (a b : string) : bool := negb (js_lt b a).

(** Truthiness of a value that is a string or [undefined]: [!x] holds for
    [undefined] and for the empty string. *)
Definition truthy (x : option string) : bool :=
  match x with
  | None => false
  | Some s => negb (String.eqb s "")
  end.

(** JSON values written as object literals by the handlers. *)
#[warnings="-register-all"]
Inductive JSON : Type :=
| JStr (s : string)
| JObj (members : list (string * JSON)).

(** A member whose value is [undefined] is dropped by [JSON.stringify]. *)
Definition member (k : string) (v : option string) : list (string * JSON) :=
  match v with
  | Some s => [(k, JStr s)]
  | None => []
  end.


(** ** Schemas *)

Definition ObjectId := string.

Module User.
Record t := mk {
  name : option string;
  email : option string;
  password : string;
}.
End User.

Module Slot.
Record t := mk {
  day : string;
  startTime : string;
  endTime : string;
}.
End Slot.

Module Doctor.
Record t := mk {
  _id : ObjectId;
  name : string;
  specialization : string;
  service : string;
  availability : list Slot.t;
}.
End Doctor.

Module Appointment.
Record t := mk {
  doctorId : ObjectId;
  doctorName : option string;
  service : option string;
  userName : string;
  userEmail : string;
  date : string;
  time : string;
  createdAt : Z;
}.

(** The triple the duplicate check of [POST /appointment] queries. *)
Definition slot (a : t) : ObjectId * string * string :=
  (doctorId a, date a, time a).
End Appointment.

Record DB := mkDB {
  users : list User.t;
  doctors : list Doctor.t;
  appointments : list Appointment.t;
}.

Definition emptyDB : DB := mkDB [] [] [].

(** ** Responses *)

Inductive Body : Type :=
| Json (j : JSON)
| DoctorDocs (ds : list Doctor.t)
| AppointmentDocs (apps : list Appointment.t).

Record Response := mkResponse {
  status : nat;
  body : Body;
}.

Definition message (s : string) : Body := Json (JObj [("message", JStr s)]).

(** ** The two deployments *)

Inductive Deployment : Type :=
| Standalone   (* backend/index.js *)
| Serverless.  (* backend/api/index.js *)

(** ** Handlers as a small monad

    A handler runs against the store and either goes on with a value, has
    sent its response (every [return res.status(..).json(..)] and the final
    [res.json(..)] of a handler), or has thrown. *)

Inductive Step (A : Type) : Type :=
| Cont (a : A) (db : DB)
| Sent (r : Response) (db : DB)
| Thrown (db : DB).
Arguments Cont {A} a db.
Arguments Sent {A} r db.
Arguments Thrown {A} db.

Definition Handler (A : Type) : Type := DB → Step A.

Definition hret {A} (a : A) : Handler A := λ db, Cont a db.

Definition hbind {A B} (m : Handler A) (k : A → Handler B) : Handler B :=
  λ db, match m db with
        | Cont a db' => k a db'
        | Sent r db' => Sent r db'
        | Thrown db' => Thrown db'
        end.

Notation "x <- m ;; k" := (hbind m (λ x, k))
  (at level 100, m at next level, right associativity,
   format "'[v' x  <-  m ;;  '/' k ']'").
Notation "m ;;; k" := (hbind m (λ _, k))
  (at level 100, right associativity, format "'[v' m ;;;  '/' k ']'").

(** [res.status(code).json(b)] followed by the end of the handler. *)
Definition reply {A} (code : nat) (b : Body) : Handler A :=
  λ db, Sent (mkResponse code b) db.

Definition throw {A} : Handler A := λ db, Thrown db.

(** [try { m } catch { h }] *)
Definition try_catch {A} (m h : Handler A) : Handler A :=
  λ db, match m db with
        | Thrown db' => h db'
        | s => s
        end.

(** Running a route handler: the response and the store it leaves.  A
    handler that ends without responding, or lets an exception escape,
    leaves the request unanswered. *)
Definition run (h : Handler unit) (db : DB) : option Response * DB :=
  match h db with
  | Sent r db' => (Some r, db')
  | Cont _ db' => (None, db')
  | Thrown db' => (None, db')
  end.

(** Every handler below ends in a response; [answer] reads it off. *)
Definition answer (h : Handler unit) (db : DB) : option Response := (run h db).1.
Definition after (h : Handler unit) (db : DB) : DB := (run h db).2.

(** ** Collections *)

Definition query {A} (f : DB → A) : Handler A := λ db, Cont (f db) db.
Definition update (f : DB → DB) : Handler unit := λ db, Cont tt (f db).

(** [User.findOne({ email })]: the first user with that email, with its
    position in the collection (the handle [user.save()] writes through).
    A query for an [undefined] email matches the documents without one. *)
Definition User_findOne (email : option string) : Handler (option (nat * User.t)) :=
  query (λ db, list_find (λ u, User.email u = email) (users db)).

(** [new User(..).save()] *)
Definition User_insert (u : User.t) : Handler unit :=
  update (λ db, mkDB (users db ++ [u]) (doctors db) (appointments db)).

(** [user.save()] on a document obtained from [User.findOne] *)
Definition User_save (i : nat) (u : User.t) : Handler unit :=
  update (λ db, mkDB (<[i:=u]> (users db)) (doctors db) (appointments db)).

(** [Doctor.find()] *)
Definition Doctor_find : Handler (list Doctor.t) := query doctors.

(** The cast of a value to the [ObjectId] the schema asks for;
    [castObjectId] is Mongoose's reading of the string, [None] where it
    raises a [CastError]. *)
Definition cast_id (castObjectId : string → option ObjectId) (value : string)
    : Handler ObjectId :=
  match castObjectId value with
  | Some oid => hret oid
  | None => throw
  end.

(** [Doctor.findById(doctorId)]: the identifier is cast, then looked up. *)
Definition Doctor_findById (castObjectId : string → option ObjectId)
    (doctorId : string) : Handler (option Doctor.t) :=
  _id <- cast_id castObjectId doctorId ;;
  query (λ db, find (λ d, String.eqb (Doctor._id d) _id) (doctors db)).

(** [Doctor.countDocuments()] *)
Definition Doctor_countDocuments : Handler nat :=
  query (λ db, List.length (doctors db)).

(** [Doctor.insertMany(docs)]: the [i]-th document gets the identifier
    [newId i]. *)
Definition Doctor_insertMany (newId : nat → ObjectId)
    (docs : list (ObjectId → Doctor.t)) : Handler unit :=
  update (λ db, mkDB (users db)
                     (doctors db ++ imap (λ i d, d (newId i)) docs)
                     (appointments db)).

(** The match of a stored appointment against a query whose [doctorId] has
    been cast: identifiers are compared as [ObjectId]s, dates and times as
    strings. *)
Definition same_slot (doctorId : ObjectId) (date time : string)
    (a : Appointment.t) : bool :=
  String.eqb (Appointment.doctorId a) doctorId
  && String.eqb (Appointment.date a) date
  && String.eqb (Appointment.time a) time.

(** [Appointment.findOne({ doctorId, date, time })]: the schema casts
    [doctorId] before the collection is searched. *)
Definition Appointment_findOne (castObjectId : string → option ObjectId)
    (doctorId date time : string) : Handler (option Appointment.t) :=
  oid <- cast_id castObjectId doctorId ;;
  query (λ db, find (same_slot oid date time) (appointments db)).

Definition Appointment_insert (a : Appointment.t) : Handler unit :=
  update (λ db, mkDB (users db) (doctors db) (appointments db ++ [a])).

(** [new Appointment({ .. }).save()]: the document holds [doctorId] as the
    [ObjectId] it casts to, and [createdAt] as the clock read when it is
    made; [save()] rejects when the cast failed. *)
Definition Appointment_save (castObjectId : string → option ObjectId)
    (doctorId : string) (doctorName service : option string)
    (userName userEmail date time : string) (createdAt : Z) : Handler unit :=
  oid <- cast_id castObjectId doctorId ;;
  Appointment_insert
    (Appointment.mk oid doctorName service userName userEmail date time createdAt).

(** The order of [.sort({ createdAt: -1 })]: later creation first. *)
Definition newer_first (a b : Appointment.t) : Prop :=
  (Appointment.createdAt b ≤ Appointment.createdAt a)%Z.

Global Instance newer_first_dec a b : Decision (newer_first a b).
Proof. unfold newer_first. apply _. Defined.

(** [Appointment.find().sort({ createdAt: -1 })]; documents created at the
    same instant come in the order the merge sort leaves them in. *)
Definition Appointment_find_sorted : Handler (list Appointment.t) :=
  query (λ db, merge_sort newer_first (appointments db)).

(** ** What a request takes from its surroundings *)

Record Env := mkEnv {
  salt : string;            (* drawn by [bcrypt.hash(password, 10)] *)
  now : Z;                  (* [Date.now()], the default of [createdAt] *)
  newId : nat → ObjectId;   (* identifiers handed out by [insertMany] *)
}.

(** After a guard on [truthy x] the value is a string. *)
Definition str (x : option string) : string := default "" x.

Definition server_error : Handler unit := reply 500 (message "Server error").

(** ** Seed data of [preloadDoctors] *)

Definition seed_doctor (name specialization service : string)
    (availability : list Slot.t) : ObjectId → Doctor.t :=
  λ id, Doctor.mk id name specialization service availability.

Definition seed (v : Deployment) : list (ObjectId → Doctor.t) :=
  match v with
  | Standalone =>
      [ seed_doctor "Dr. Anjali Nair" "Cosmetic Dentistry" "Cosmetic Dentistry"
          [ Slot.mk "Mon" "10:00" "14:00";
            Slot.mk "Wed" "10:00" "14:00";
            Slot.mk "Fri" "10:00" "14:00" ];
        seed_doctor "Dr. Ravi Menon" "Orthodontics" "Orthodontics"
          [ Slot.mk "Tue" "11:00" "16:00";
            Slot.mk "Thu" "11:00" "16:00" ];
        seed_doctor "Dr. Meera Thomas" "Pediatric Dentistry" "Cosmetic Dentistry"
          [ Slot.mk "Mon" "14:00" "18:00";
            Slot.mk "Tue" "14:00" "18:00";
            Slot.mk "Wed" "14:00" "18:00";
            Slot.mk "Thu" "14:00" "18:00";
            Slot.mk "Fri" "14:00" "18:00" ];
        seed_doctor "Dr. Arun Das" "Dental Implants" "Dental Implants"
          [ Slot.mk "Sat" "09:00" "13:00";
            Slot.mk "Sun" "09:00" "13:00" ];
        seed_doctor "Dr. Sneha Pillai" "Endodontics" "Cosmetic Dentistry"
          [ Slot.mk "Wed" "15:00" "18:00";
            Slot.mk "Fri" "15:00" "18:00" ] ]
  | Serverless =>
      [ seed_doctor "Dr. Anjali Nair" "Cosmetic Dentistry" "Cosmetic Dentistry"
          [ Slot.mk "Mon" "10:00" "14:00" ] ]
  end.

(** [preloadDoctors()] *)
Definition preloadDoctors (v : Deployment) (env : Env) : Handler unit :=
  count <- Doctor_countDocuments ;;
  if (0 <? count)%nat then hret tt
  else Doctor_insertMany (newId env) (seed v).

(** ** Response texts that differ between the deployments *)

Definition msg_not_available (v : Deployment) (appointmentDay : string) : string :=
  match v with
  | Standalone => "Doctor is not available on " +:+ appointmentDay
  | Serverless => "Doctor not available on " +:+ appointmentDay
  end.

Definition msg_window (v : Deployment) (appointmentDay : string) (s : Slot.t) : string :=
  match v with
  | Standalone =>
      "Doctor is available on " +:+ appointmentDay +:+ " only between "
        +:+ Slot.startTime s +:+ " and " +:+ Slot.endTime s
  | Serverless =>
      "Doctor available " +:+ Slot.startTime s +:+ "-" +:+ Slot.endTime s
  end.

Definition msg_taken (v : Deployment) : string :=
  match v with
  | Standalone => "Doctor already has an appointment at this time"
  | Serverless => "Slot unavailable"
  end.

Definition msg_booked (v : Deployment) : string :=
  match v with
  | Standalone => "Appointment booked successfully"
  | Serverless => "Appointment booked"
  end.

(** [time >= slot.startTime && time <= slot.endTime] *)
Definition isTimeValid (time : string) (availableSlot : Slot.t) : bool :=
  js_ge time (Slot.startTime availableSlot)
  && js_le time (Slot.endTime availableSlot).

(** ** Route handlers *)

Section Handlers.

(** [bcrypt.hash(s, 10)] with the salt it draws, on a string [s]. *)
Variable bcrypt_hash : string → string → string.
(** [bcrypt.compare(s, hash)] on strings. *)
Variable bcrypt_compare : string → string → bool.
(** Mongoose's cast of a string to [ObjectId]; [None] is a [CastError]. *)
Variable castObjectId : string → option ObjectId.
(** [new Date(date).toLocaleDateString("en-US", { weekday: "short" })] *)
Variable weekdayShort : string → string.

(** Both [bcryptjs] entry points reject a first argument that is not a
    string. *)
Definition hash (s : option string) (salt : string) : Handler string :=
  match s with
  | Some p => hret (bcrypt_hash p salt)
  | None => throw
  end.

Definition compare (s : option string) (hashed : string) : Handler bool :=
  match s with
  | Some p => hret (bcrypt_compare p hashed)
  | None => throw
  end.

(** [POST /register] *)
Definition register (env : Env) (req_body : gmap string string) : Handler unit :=
  let name := req_body !! "name" in
  let email := req_body !! "email" in
  let password := req_body !! "password" in
  try_catch
    (existingUser <- User_findOne email ;;
     match existingUser with
     | Some _ => reply 409 (message "User already exists")
     | None =>
         hashedPassword <- hash password (salt env) ;;
         User_insert (User.mk name email hashedPassword) ;;;
         reply 201 (message "User registered successfully")
     end)
    server_error.

(** [POST /signin] *)
Definition signin (req_body : gmap string string) : Handler unit :=
  let email := req_body !! "email" in
  let password := req_body !! "password" in
  try_catch
    (user <- User_findOne email ;;
     match user with
     | None => reply 401 (message "Invalid email or password")
     | Some (_, user) =>
         isMatch <- compare password (User.password user) ;;
         if negb isMatch
         then reply 401 (message "Invalid email or password")
         else
           reply 200
             (Json (JObj [ ("message", JStr "Sign-in successful");
                           ("user", JObj (member "name" (User.name user) ++
                                          member "email" (User.email user))) ]))
     end)
    server_error.

(** [GET /doctors] *)
Definition getDoctors : Handler unit :=
  try_catch
    (doctors <- Doctor_find ;;
     reply 200 (DoctorDocs doctors))
    server_error.

(** The guard that only [backend/index.js] has in front of
    [POST /resetpassword]. *)
Definition reset_fields_missing (v : Deployment) (email password : option string) : bool :=
  match v with
  | Standalone => negb (truthy email) || negb (truthy password)
  | Serverless => false
  end.

(** [POST /resetpassword] *)
Definition resetpassword (v : Deployment) (env : Env)
    (req_body : gmap string string) : Handler unit :=
  let email := req_body !! "email" in
  let password := req_body !! "password" in
  if reset_fields_missing v email password
  then reply 400 (message "Email and password are required")
  else
    try_catch
      (user <- User_findOne email ;;
       match user with
       | None => reply 404 (message "User not found")
       | Some (i, user) =>
           hashedPassword <- hash password (salt env) ;;
           User_save i (User.mk (User.name user) (User.email user) hashedPassword) ;;;
           reply 200 (message "Password reset successfully")
       end)
      server_error.

(** [POST /appointment] *)
Definition appointment (v : Deployment) (env : Env)
    (req_body : gmap string string) : Handler unit :=
  let doctorId := req_body !! "doctorId" in
  let doctorName := req_body !! "doctorName" in
  let service := req_body !! "service" in
  let userName := req_body !! "userName" in
  let userEmail := req_body !! "userEmail" in
  let date := req_body !! "date" in
  let time := req_body !! "time" in
  if negb (truthy doctorId) || negb (truthy userName) || negb (truthy userEmail)
     || negb (truthy date) || negb (truthy time)
  then reply 400 (message "Missing required fields")
  else
    try_catch
      (doctor <- Doctor_findById castObjectId (str doctorId) ;;
       match doctor with
       | None => reply 404 (message "Doctor not found")
       | Some doctor =>
           let appointmentDay := weekdayShort (str date) in
           let availableSlot :=
             find (λ slot, String.eqb (Slot.day slot) appointmentDay)
                  (Doctor.availability doctor) in
           match availableSlot with
           | None => reply 400 (message (msg_not_available v appointmentDay))
           | Some availableSlot =>
               if negb (isTimeValid (str time) availableSlot)
               then reply 400 (message (msg_window v appointmentDay availableSlot))
               else
                 existingAppointment <-
                   Appointment_findOne castObjectId
                     (str doctorId) (str date) (str time) ;;
                 match existingAppointment with
                 | Some _ => reply 409 (message (msg_taken v))
                 | None =>
                     Appointment_save castObjectId
                       (str doctorId) doctorName service
                       (str userName) (str userEmail) (str date) (str time)
                       (now env) ;;;
                     reply 201 (message (msg_booked v))
                 end
           end
       end)
      server_error.

(** [GET /appointments] *)
Definition getAppointments : Handler unit :=
  try_catch
    (appointments <- Appointment_find_sorted ;;
     reply 200 (AppointmentDocs appointments))
    server_error.

(** ** The service as a transition system *)

Inductive Call : Type :=
| PostRegister (req_body : gmap string string)
| PostSignin (req_body : gmap string string)
| GetDoctors
| PostResetPassword (req_body : gmap string string)
| PostAppointment (req_body : gmap string string)
| GetAppointments
| PreloadDoctors.

Definition handler (v : Deployment) (env : Env) (c : Call) : Handler unit :=
  match c with
  | PostRegister b => register env b
  | PostSignin b => signin b
  | GetDoctors => getDoctors
  | PostResetPassword b => resetpassword v env b
  | PostAppointment b => appointment v env b
  | GetAppointments => getAppointments
  | PreloadDoctors => preloadDoctors v env
  end.

(** One operation: the response, if any, and the store afterwards. *)
Definition exec (v : Deployment) (env : Env) (c : Call) (db : DB)
    : option Response * DB :=
  run (handler v env c) db.

End Handlers.

(** ** A concrete runtime for examples

    The handlers are parametric in [bcrypt], in the calendar and in the
    cast to [ObjectId].  The definitions of this part stand in for them
    where a handler is evaluated on a concrete request; no property below
    is stated about them.
    - [weekdayShort_utc] is a calendar for dates written [YYYY-MM-DD] that
      exist: on those it gives the weekday label a process running in UTC
      prints.  On every other string it gives ["Invalid Date"], which is not
      what the runtime does on all of them (the runtime also reads other
      spellings of a date, and rolls a day that does not exist over into
      the next month); the examples use existing dates only.
    - [castObjectId_hex] reads a string of 24 hexadecimal digits, in either
      case, as the identifier it spells and rejects every other string.
      Releases of the driver differ on strings of other shapes (older ones
      also read any twelve characters as an identifier); the examples use
      strings of 24 digits and one of two characters, on which they agree.
    - [demo_hash]/[demo_compare] stand in for [bcrypt] with a checksum in
      place of the Blowfish digest. *)

Definition digit (c : ascii) : option Z :=
  let n := Z.of_N (N_of_ascii c) in
  if (48 <=? n) && (n <=? 57) then Some (n - 48) else None.

Fixpoint number (acc : Z) (s : string) : option Z :=
  match s with
  | EmptyString => Some acc
  | String c s' =>
      match digit c with
      | Some d => number (10 * acc + d) s'
      | None => None
      end
  end.

Definition leap (y : Z) : bool :=
  ((y mod 4 =? 0) && negb (y mod 100 =? 0)) || (y mod 400 =? 0).

Definition days_in_month (y m : Z) : Z :=
  if m =? 2 then (if leap y then 29 else 28)
  else if (m =? 4) || (m =? 6) || (m =? 9) || (m =? 11) then 30
  else 31.

(** Days since 1970-01-01 of a proleptic Gregorian date. *)
Definition days_from_civil (y m d : Z) : Z :=
  let y' := if m <=? 2 then y - 1 else y in
  let era := y' / 400 in
  let yoe := y' - era * 400 in
  let mp := (m + 9) mod 12 in
  let doy := (153 * mp + 2) / 5 + d - 1 in
  let doe := yoe * 365 + yoe / 4 - yoe / 100 + doy in
  era * 146097 + doe - 719468.

Definition weekday_names : list string :=
  ["Sun"; "Mon"; "Tue"; "Wed"; "Thu"; "Fri"; "Sat"].

Definition weekdayShort_utc (date : string) : string :=
  let invalid := "Invalid Date" in
  if negb (String.length date =? 10)%nat then invalid
  else if negb (String.eqb (substring 4 1 date) "-"
                && String.eqb (substring 7 1 date) "-") then invalid
  else
    match number 0 (substring 0 4 date),
          number 0 (substring 5 2 date),
          number 0 (substring 8 2 date) with
    | Some y, Some m, Some d =>
        if (1 <=? m) && (m <=? 12) && (1 <=? d) && (d <=? days_in_month y m)
        then nth (Z.to_nat ((days_from_civil y m d + 4) mod 7)) weekday_names invalid
        else invalid
    | _, _, _ => invalid
    end.

Fixpoint checksum (acc : N) (s : string) : N :=
  match s with
  | EmptyString => acc
  | String c s' => checksum ((31 * acc + N_of_ascii c) mod 65521)%N s'
  end.

Fixpoint decimal (fuel : nat) (n : N) (acc : string) : string :=
  match fuel with
  | O => acc
  | S fuel' =>
      let acc' := String (ascii_of_N (48 + n mod 10)) acc in
      if (n <? 10)%N then acc' else decimal fuel' (n / 10)%N acc'
  end.

Definition demo_hash (password salt : string) : string :=
  "$2a$10$" +:+ salt +:+ "$" +:+ decimal 5 (checksum 7 (salt +:+ password)) "".

(** The salt of a stored hash sits between its third and fourth [$]. *)
Definition demo_salt (hashed : string) : string :=
  let rest := substring 7 (String.length hashed - 7) hashed in
  match index 0 "$" rest with
  | Some n => substring 0 n rest
  | None => rest
  end.

Definition demo_compare (password hashed : string) : bool :=
  String.eqb (demo_hash password (demo_salt hashed)) hashed.

Definition is_hex_digit (c : ascii) : bool :=
  let n := N_of_ascii c in
  ((48 <=? n) && (n <=? 57) || (97 <=? n) && (n <=? 102)
   || (65 <=? n) && (n <=? 70))%N.

Definition lower_hex_digit (c : ascii) : ascii :=
  let n := N_of_ascii c in
  if ((65 <=? n) && (n <=? 70))%N then ascii_of_N (n + 32) else c.

Fixpoint all_hex (s : string) : bool :=
  match s with
  | EmptyString => true
  | String c s' => is_hex_digit c && all_hex s'
  end.

Fixpoint lower_hex (s : string) : string :=
  match s with
  | EmptyString => EmptyString
  | String c s' => String (lower_hex_digit c) (lower_hex s')
  end.

Definition castObjectId_hex (value : string) : option ObjectId :=
  if (String.length value =? 24)%nat && all_hex value
  then Some (lower_hex value)
  else None.

(** The decimal digits of [n], zero-padded on the left to [width]. *)
Fixpoint padded (width : nat) (n : N) (acc : string) : string :=
  match width with
  | O => acc
  | S width' => padded width' (n / 10)%N (String (ascii_of_N (48 + n mod 10)) acc)
  end.

Definition demo_env : Env :=
  mkEnv "c2FsdA" 1700000000000 (λ i, "65b" +:+ padded 21 (N.of_nat i) "").

Definition id_nair : ObjectId := "65a000000000000000000001".
Definition id_split : ObjectId := "65a000000000000000000002".
Definition id_night : ObjectId := "65a000000000000000000003".

(** A request body from its members. *)
Definition json_body (members : list (string * string)) : gmap string string :=
  list_to_map members.

Definition dr_nair : Doctor.t :=
  Doctor.mk id_nair "Dr. Anjali Nair" "Cosmetic Dentistry" "Cosmetic Dentistry"
    [ Slot.mk "Mon" "10:00" "14:00" ].

Definition demo_db : DB := mkDB [] [dr_nair] [].

Definition demo_booking (time : string) : gmap string string :=
  json_body [ ("doctorId", id_nair); ("doctorName", "Dr. Anjali Nair");
              ("service", "Cosmetic Dentistry"); ("userName", "Asha");
              ("userEmail", "asha@example.org"); ("date", "2024-01-01");
              ("time", time) ].

(** A doctor with a morning and an afternoon window on Mondays. *)
Definition dr_split : Doctor.t :=
  Doctor.mk id_split "Dr. Split Shift" "Orthodontics" "Orthodontics"
    [ Slot.mk "Tue" "11:00" "16:00";
      Slot.mk "Mon" "09:00" "12:00";
      Slot.mk "Mon" "14:00" "18:00" ].

Definition split_db : DB := mkDB [] [dr_nair; dr_split] [].

Definition asha : User.t :=
  User.mk (Some "Asha") (Some "asha@example.org") (demo_hash "hunter2" "c2FsdA").

Definition ravi : User.t :=
  User.mk (Some "Ravi") (Some "ravi@example.org") (demo_hash "swordfish" "c2FsdA").

Definition users_db : DB := mkDB [asha; ravi] [dr_nair] [].

Definition credentials (email password : string) : gmap string string :=
  json_body [("email", email); ("password", password)].

(** ** Vocabulary of the properties *)

(** Lexicographic order on strings, code unit by code unit. *)
Inductive lex_le : string → string → Prop :=
| lex_le_empty b : lex_le "" b
| lex_le_less x a y b :
    (N_of_ascii x < N_of_ascii y)%N → lex_le (String x a) (String y b)
| lex_le_same x a b :
    lex_le a b → lex_le (String x a) (String x b).

(** [time] lies in the closed interval of the window. *)
Definition in_window (time : string) (w : Slot.t) : Prop :=
  lex_le (Slot.startTime w) time ∧ lex_le time (Slot.endTime w).

(** The five members [POST /appointment] requires are present. *)
Definition fields_present (req_body : gmap string string) : Prop :=
  truthy (req_body !! "doctorId") ∧ truthy (req_body !! "userName")
  ∧ truthy (req_body !! "userEmail") ∧ truthy (req_body !! "date")
  ∧ truthy (req_body !! "time").

(** The slot a booking request asks for, [oid] being what its [doctorId]
    casts to. *)
Definition requested_slot (oid : ObjectId) (req_body : gmap string string)
    : ObjectId * string * string :=
  (oid, str (req_body !! "date"), str (req_body !! "time")).

(** The document a successful booking stores, [oid] being what the
    [doctorId] of the request casts to. *)
Definition booked (oid : ObjectId) (env : Env) (req_body : gmap string string)
    : Appointment.t :=
  Appointment.mk oid (req_body !! "doctorName")
    (req_body !! "service") (str (req_body !! "userName"))
    (str (req_body !! "userEmail")) (str (req_body !! "date"))
    (str (req_body !! "time")) (now env).

(** No two stored appointments share (doctorId, date, time). *)
Definition slots_distinct (db : DB) : Prop :=
  NoDup (Appointment.slot <$> appointments db).

(** The doctor [Doctor.findById] resolves an identifier to. *)
Definition doctor_of (db : DB) (doctorId : ObjectId) : option Doctor.t :=
  find (λ d, String.eqb (Doctor._id d) doctorId) (doctors db).

(** The window [availability.find] picks for a weekday label. *)
Definition window_of (d : Doctor.t) (appointmentDay : string) : option Slot.t :=
  find (λ slot, String.eqb (Slot.day slot) appointmentDay) (Doctor.availability d).

(** An appointment stored for the slot, if any. *)
Definition taken (db : DB) (sl : ObjectId * string * string) : option Appointment.t :=
  find (same_slot sl.1.1 sl.1.2 sl.2) (appointments db).

(** The user [User.findOne({ email })] resolves to. *)
Definition user_of (db : DB) (email : option string) : option (nat * User.t) :=
  list_find (λ u, User.email u = email) (users db).

(** The guard at the head of [POST /appointment]. *)
Definition missing_guard (req_body : gmap string string) : bool :=
  negb (truthy (req_body !! "doctorId")) || negb (truthy (req_body !! "userName"))
  || negb (truthy (req_body !! "userEmail")) || negb (truthy (req_body !! "date"))
  || negb (truthy (req_body !! "time")).

(** The weekday label the handler derives from the request. *)
Definition day_of (weekdayShort : string → string) (req_body : gmap string string) : string :=
  weekdayShort (str (req_body !! "date")).

(** The seven ways a booking request can end: each failure presupposes
    that the checks before it have passed. *)
Inductive book_case (castObjectId : string → option ObjectId)
    (weekdayShort : string → string) (v : Deployment) (env : Env)
    (b : gmap string string) (db : DB) : option Response * DB → Prop :=
| Book_missing :
    ¬ fields_present b →
    book_case castObjectId weekdayShort v env b db
      (Some (mkResponse 400 (message "Missing required fields")), db)
| Book_cast_error :
    fields_present b → castObjectId (str (b !! "doctorId")) = None →
    book_case castObjectId weekdayShort v env b db
      (Some (mkResponse 500 (message "Server error")), db)
| Book_no_doctor oid :
    fields_present b → castObjectId (str (b !! "doctorId")) = Some oid →
    doctor_of db oid = None →
    book_case castObjectId weekdayShort v env b db
      (Some (mkResponse 404 (message "Doctor not found")), db)
| Book_no_window oid d :
    fields_present b → castObjectId (str (b !! "doctorId")) = Some oid →
    doctor_of db oid = Some d →
    window_of d (day_of weekdayShort b) = None →
    book_case castObjectId weekdayShort v env b db
      (Some (mkResponse 400 (message (msg_not_available v (day_of weekdayShort b)))), db)
| Book_outside oid d w :
    fields_present b → castObjectId (str (b !! "doctorId")) = Some oid →
    doctor_of db oid = Some d →
    window_of d (day_of weekdayShort b) = Some w →
    isTimeValid (str (b !! "time")) w = false →
    book_case castObjectId weekdayShort v env b db
      (Some (mkResponse 400 (message (msg_window v (day_of weekdayShort b) w))), db)
| Book_taken oid d w a :
    fields_present b → castObjectId (str (b !! "doctorId")) = Some oid →
    doctor_of db oid = Some d →
    window_of d (day_of weekdayShort b) = Some w →
    isTimeValid (str (b !! "time")) w = true →
    taken db (requested_slot oid b) = Some a →
    book_case castObjectId weekdayShort v env b db
      (Some (mkResponse 409 (message (msg_taken v))), db)
| Book_free oid d w :
    fields_present b → castObjectId (str (b !! "doctorId")) = Some oid →
    doctor_of db oid = Some d →
    window_of d (day_of weekdayShort b) = Some w →
    isTimeValid (str (b !! "time")) w = true →
    taken db (requested_slot oid b) = None →
    book_case castObjectId weekdayShort v env b db
      (Some (mkResponse 201 (message (msg_booked v))),
       mkDB (users db) (doctors db) (appointments db ++ [booked oid env b])).

(** A doctor whose Monday window ends before it starts. *)
Definition dr_night : Doctor.t :=
  Doctor.mk id_night "Dr. Night Shift" "Endodontics" "Endodontics"
    [ Slot.mk "Mon" "22:00" "06:00" ].

Definition night_db : DB := mkDB [] [dr_night] [].

(** ** Vocabulary of further properties *)

(** No two stored users share an email (the [unique] index of the schema). *)
Definition emails_distinct (db : DB) : Prop :=
  NoDup (User.email <$> users db).

(** A stored appointment that passes the checks of [POST /appointment]
    against the store: its required fields are non-empty (its [doctorId] is
    what a non-empty string casts to), its doctor exists, and its time lies
    in the window [availability.find] picks for the weekday of its date. *)
Definition appointment_valid (castObjectId : string → option ObjectId)
    (weekdayShort : string → string) (db : DB) (a : Appointment.t) : Prop :=
  (∃ doctorId, doctorId ≠ "" ∧ castObjectId doctorId = Some (Appointment.doctorId a))
  ∧ Appointment.userName a ≠ ""
  ∧ Appointment.userEmail a ≠ "" ∧ Appointment.date a ≠ ""
  ∧ Appointment.time a ≠ ""
  ∧ ∃ d w, doctor_of db (Appointment.doctorId a) = Some d
           ∧ window_of d (weekdayShort (Appointment.date a)) = Some w
           ∧ in_window (Appointment.time a) w.

Definition appointments_valid (castObjectId : string → option ObjectId)
    (weekdayShort : string → string) (db : DB) : Prop :=
  Forall (appointment_valid castObjectId weekdayShort db) (appointments db).

(** A run of the service: calls served one after another, each with what it
    takes from its surroundings. *)
Definition execs (bcrypt_hash : string → string → string)
    (bcrypt_compare : string → string → bool)
    (castObjectId : string → option ObjectId) (weekdayShort : string → string)
    (v : Deployment) (calls : list (Env * Call)) (db : DB) : DB :=
  foldl (λ db ec, (exec bcrypt_hash bcrypt_compare castObjectId weekdayShort v
                     ec.1 ec.2 db).2)
        db calls.

(** The writes a call can make: none, one user appended under an email no
    stored user has, the password of one stored user replaced, the seed list
    put into an empty doctor collection, or one accepted booking appended. *)
Inductive Write (castObjectId : string → option ObjectId)
    (weekdayShort : string → string) (v : Deployment) (db : DB) : DB → Prop :=
| Write_nothing : Write castObjectId weekdayShort v db db
| Write_user u :
    (∀ u', u' ∈ users db → User.email u' ≠ User.email u) →
    Write castObjectId weekdayShort v db
      (mkDB (users db ++ [u]) (doctors db) (appointments db))
| Write_password i u hashed :
    users db !! i = Some u →
    Write castObjectId weekdayShort v db
      (mkDB (<[i := User.mk (User.name u) (User.email u) hashed]> (users db))
            (doctors db) (appointments db))
| Write_seed newId :
    doctors db = [] →
    Write castObjectId weekdayShort v db
      (mkDB (users db) (doctors db ++ imap (λ i d, d (newId i)) (seed v))
            (appointments db))
| Write_booking env b oid d w :
    fields_present b →
    castObjectId (str (b !! "doctorId")) = Some oid →
    doctor_of db oid = Some d →
    window_of d (day_of weekdayShort b) = Some w →
    isTimeValid (str (b !! "time")) w = true →
    taken db (requested_slot oid b) = None →
    Write castObjectId weekdayShort v db
      (mkDB (users db) (doctors db) (appointments db ++ [booked oid env b])).

(** The members [POST /appointment] requires. *)
Definition required_keys : list string :=
  ["doctorId"; "userName"; "userEmail"; "date"; "time"].

(** The zero-padded ["HH:MM"] rendering the schema comments ask for. *)
Definition digit_char (n : N) : ascii := ascii_of_N (48 + n).

Definition hhmm (h m : N) : string :=
  String (digit_char (h / 10))
    (String (digit_char (h mod 10))
       (String ":"
          (String (digit_char (m / 10)) (String (digit_char (m mod 10)) "")))).

Definition minutes (h m : N) : N := (60 * h + m)%N.

(** ** Connection bootstrap

    What the bootstrap does to its surroundings is recorded as a trace. *)
Inductive Effect : Type :=
| LogMissingUri        (* console.log: missing MONGO_URI *)
| LogConnected         (* console.log: MongoDB connected *)
| LogConnectionError   (* console.error: MongoDB connection error *)
| Connect (uri : string)   (* mongoose.connect(uri) *)
| StartPreload.        (* preloadDoctors() started, not awaited *)

Global Instance Effect_eq_dec : EqDecision Effect.
Proof. solve_decision. Defined.

Record Connection := mkConnection {
  isConnected : bool;       (* the flag of [backend/api/index.js] *)
  effects : list Effect;    (* what the call did *)
  rejected : bool;          (* the promise of [connectDB] rejected *)
}.

(** [connectDB()] of [backend/api/index.js]; [connects] tells whether
    [mongoose.connect] resolves when it is tried. *)
Definition connectDB (MONGO_URI : option string) (connects : bool)
    (isConnected : bool) : Connection :=
  if isConnected then mkConnection true [] false
  else if negb (truthy MONGO_URI) then mkConnection false [LogMissingUri] false
  else if connects
       then mkConnection true [Connect (str MONGO_URI); LogConnected; StartPreload] false
       else mkConnection false [Connect (str MONGO_URI)] true.

(** One [connectDB()] per request, with the outcome [mongoose.connect] would
    have at each: the flag at the end and everything that was done. *)
Fixpoint connectDB_calls (MONGO_URI : option string) (outcomes : list bool)
    (flag : bool) : bool * list Effect :=
  match outcomes with
  | [] => (flag, [])
  | connects :: outcomes' =>
      let c := connectDB MONGO_URI connects flag in
      let rest := connectDB_calls MONGO_URI outcomes' (isConnected c) in
      (rest.1, (effects c ++ rest.2)%list)
  end.

(** The bootstrap of [backend/index.js]: [MONGO_URI] falls back to the local
    address, and [preloadDoctors] runs in the [then] of the connection. *)
Definition default_uri : string := "mongodb://localhost:27017/dentalapp".

Definition bootstrap (env_MONGO_URI : option string) (connects : bool) : list Effect :=
  let MONGO_URI := if truthy env_MONGO_URI then str env_MONGO_URI else default_uri in
  Connect MONGO_URI
    :: (if connects then [LogConnected; StartPreload] else [LogConnectionError]).

Example weekday_2024_01_01 : weekdayShort_utc "2024-01-01" = "Mon".
Proof. reflexivity. Qed.

Example weekday_1970_01_01 : weekdayShort_utc "1970-01-01" = "Thu".
Proof. reflexivity. Qed.

Example cast_hex :
  castObjectId_hex "65A000000000000000000001" = Some id_nair
  ∧ castObjectId_hex id_nair = Some id_nair
  ∧ castObjectId_hex "d9" = None.
Proof. repeat split. Qed.

Example demo_hash_compare :
  demo_compare "hunter2" (demo_hash "hunter2" "c2FsdA") = true
  ∧ demo_compare "hunter3" (demo_hash "hunter2" "c2FsdA") = false.
Proof. split; vm_compute; reflexivity. Qed.

Example book_demo :
  answer (appointment castObjectId_hex weekdayShort_utc Standalone demo_env
            (demo_booking "11:00")) demo_db
  = Some (mkResponse 201 (message "Appointment booked successfully")).
Proof. vm_compute. reflexivity. Qed.

(** ** The string order of the handlers is the lexicographic order *)

Lemma js_lt_irrefl a : js_lt a a = false.
Proof.
  induction a as [|x a IH]; simpl; [done|].
  rewrite N.ltb_irrefl. done.
Qed.

Lemma js_lt_false_lex_le a b : js_lt a b = false ↔ lex_le b a.
Proof.
  split.
  - revert b. induction a as [|x a IH]; intros [|y b]; simpl; try done.
    + constructor.
    + constructor.
    + destruct (N.ltb_spec (N_of_ascii x) (N_of_ascii y)) as [Hxy|Hxy]; [done|].
      destruct (N.ltb_spec (N_of_ascii y) (N_of_ascii x)) as [Hyx|Hyx].
      * intros _. by constructor.
      * intros Hlt. assert (x = y) as ->.
        { rewrite <-(ascii_N_embedding x), <-(ascii_N_embedding y).
          f_equal. lia. }
        apply lex_le_same. by apply IH.
  - induction 1 as [b|x a y b Hlt|x a b Hle IH]; simpl.
    + by destruct b.
    + destruct (N.ltb_spec (N_of_ascii y) (N_of_ascii x)); [lia|].
      destruct (N.ltb_spec (N_of_ascii x) (N_of_ascii y)); [done|lia].
    + by rewrite N.ltb_irrefl.
Qed.

Lemma js_le_lex_le a b : js_le a b = true ↔ lex_le a b.
Proof.
  unfold js_le. rewrite negb_true_iff. apply js_lt_false_lex_le.
Qed.

Lemma js_ge_lex_le a b : js_ge a b = true ↔ lex_le b a.
Proof.
  unfold js_ge. rewrite negb_true_iff. apply js_lt_false_lex_le.
Qed.

Lemma isTimeValid_in_window time w : isTimeValid time w = true ↔ in_window time w.
Proof.
  unfold isTimeValid, in_window.
  rewrite andb_true_iff, js_ge_lex_le, js_le_lex_le. done.
Qed.

Lemma isTimeValid_outside time w : isTimeValid time w = false ↔ ¬ in_window time w.
Proof.
  rewrite <-isTimeValid_in_window. by destruct (isTimeValid time w).
Qed.

(** ** Running [POST /appointment], branch by branch *)

Ltac unfold_handler :=
  unfold exec, handler;
  unfold register, signin, getDoctors, resetpassword, getAppointments, preloadDoctors;
  unfold answer, after, run, try_catch, hbind, server_error;
  unfold User_findOne, User_insert, User_save, Doctor_find, Doctor_findById,
    Doctor_countDocuments, Doctor_insertMany, Appointment_findOne,
    Appointment_save, Appointment_find_sorted, hash, compare;
  unfold Appointment_insert, cast_id, hbind;
  unfold query, update, hret, reply, throw; cbv beta.

Lemma missing_guard_false b : missing_guard b = false ↔ fields_present b.
Proof.
  unfold missing_guard, fields_present.
  destruct (truthy (b !! "doctorId")), (truthy (b !! "userName")),
    (truthy (b !! "userEmail")), (truthy (b !! "date")), (truthy (b !! "time"));
    simpl; intuition discriminate.
Qed.

Lemma missing_guard_true b : missing_guard b = true ↔ ¬ fields_present b.
Proof.
  rewrite <-missing_guard_false. by destruct (missing_guard b).
Qed.

Section Booking.

Variable castObjectId : string → option ObjectId.
Variable weekdayShort : string → string.
Variables (v : Deployment) (env : Env) (b : gmap string string) (db : DB).

(** Past the guard, the handler is the cast of [doctorId] followed by the
    chain of its look-ups. *)
Lemma book_past_guard :
  fields_present b →
  run (appointment castObjectId weekdayShort v env b) db =
    match castObjectId (str (b !! "doctorId")) with
    | None => (Some (mkResponse 500 (message "Server error")), db)
    | Some oid =>
        match doctor_of db oid with
        | None => (Some (mkResponse 404 (message "Doctor not found")), db)
        | Some d =>
            match window_of d (day_of weekdayShort b) with
            | None =>
                (Some (mkResponse 400
                         (message (msg_not_available v (day_of weekdayShort b)))), db)
            | Some w =>
                if isTimeValid (str (b !! "time")) w then
                  match taken db (requested_slot oid b) with
                  | Some _ => (Some (mkResponse 409 (message (msg_taken v))), db)
                  | None =>
                      (Some (mkResponse 201 (message (msg_booked v))),
                       mkDB (users db) (doctors db)
                         (appointments db ++ [booked oid env b]))
                  end
                else
                  (Some (mkResponse 400
                           (message (msg_window v (day_of weekdayShort b) w))), db)
            end
        end
    end.
Proof.
  intros H%missing_guard_false. unfold appointment.
  fold (missing_guard b). rewrite H. unfold_handler.
  unfold doctor_of, window_of, taken, requested_slot, day_of, booked. simpl.
  destruct (castObjectId (str (b !! "doctorId"))) as [oid|]; [|done].
  destruct (find _ (doctors db)) as [d|]; [|done].
  destruct (find _ (Doctor.availability d)) as [w|]; [|done].
  destruct (isTimeValid _ w); simpl; [|done].
  by destruct (find _ (appointments db)).
Qed.

Lemma book_missing :
  ¬ fields_present b →
  run (appointment castObjectId weekdayShort v env b) db =
    (Some (mkResponse 400 (message "Missing required fields")), db).
Proof.
  intros H%missing_guard_true. unfold appointment.
  fold (missing_guard b). by rewrite H.
Qed.

Lemma book_cases :
  book_case castObjectId weekdayShort v env b db
    (run (appointment castObjectId weekdayShort v env b) db).
Proof.
  destruct (decide (fields_present b)) as [Hf|Hf];
    [|rewrite book_missing by done; by constructor].
  rewrite book_past_guard by done.
  destruct (castObjectId _) as [oid|] eqn:Hc; [|by constructor].
  destruct (doctor_of db _) as [d|] eqn:Hd; [|by econstructor].
  destruct (window_of d _) as [w|] eqn:Hw; [|by econstructor].
  destruct (isTimeValid _ w) eqn:Ht; [|by econstructor].
  destruct (taken db _) as [a|] eqn:Ha; by econstructor.
Qed.

End Booking.

(** ** Looking a slot up *)

Lemma same_slot_spec id date time a :
  same_slot id date time a = true ↔ Appointment.slot a = (id, date, time).
Proof.
  unfold same_slot, Appointment.slot.
  rewrite !andb_true_iff, !String.eqb_eq.
  split; [intros [[-> ->] ->]; done | intros [= <- <- <-]; done].
Qed.

Lemma taken_None db sl :
  taken db sl = None ↔ sl ∉ (Appointment.slot <$> appointments db).
Proof.
  destruct sl as [[id date] time]. unfold taken. simpl.
  induction (appointments db) as [|a l IH]; simpl.
  - split; [intros _; apply not_elem_of_nil | done].
  - rewrite not_elem_of_cons, <-IH.
    destruct (same_slot id date time a) eqn:Ha.
    + apply same_slot_spec in Ha.
      split; [done | intros [Hne _]; by destruct Hne].
    + assert (Appointment.slot a ≠ (id, date, time)).
      { intros Heq%same_slot_spec. congruence. }
      split; [intros; split; [congruence | done] | by intros [_ ?]].
Qed.

Lemma taken_Some db sl :
  (∃ a, a ∈ appointments db ∧ Appointment.slot a = sl) → ∃ a, taken db sl = Some a.
Proof.
  intros (a & Hin & Hsl). destruct (taken db sl) as [a'|] eqn:Ht; [by exists a'|].
  apply taken_None in Ht. destruct Ht. apply list_elem_of_fmap. by exists a.
Qed.

(** ** The validation chain of [POST /appointment] *)

(** C3, as amended.  [POST /appointment] is one early-exit chain in the
    order: required fields, doctor lookup, weekday match, time window,
    duplicate slot, insert.  Each outcome is decided by the first check that
    fails, given that all checks before it passed.  A request that misses a
    required field is answered 400 whatever the store holds.  A complete
    request whose [doctorId] casts to an identifier that no stored doctor
    has is answered 404 whatever its date and time are; a complete request
    whose [doctorId] does not cast to an identifier makes the lookup throw
    and is answered 500. *)
Theorem book_validation_order (castObjectId : string → option ObjectId)
    (weekdayShort : string → string) (v : Deployment)
    (env : Env) (b : gmap string string) (db : DB) :
  let result := run (appointment castObjectId weekdayShort v env b) db in
  let day := day_of weekdayShort b in
  let cast := castObjectId (str (b !! "doctorId")) in
  (¬ fields_present b →
     result = (Some (mkResponse 400 (message "Missing required fields")), db))
  ∧ (fields_present b → cast = None →
     result = (Some (mkResponse 500 (message "Server error")), db))
  ∧ (∀ oid, fields_present b → cast = Some oid → doctor_of db oid = None →
     result = (Some (mkResponse 404 (message "Doctor not found")), db))
  ∧ (∀ oid d, fields_present b → cast = Some oid → doctor_of db oid = Some d →
     window_of d day = None →
     result = (Some (mkResponse 400 (message (msg_not_available v day))), db))
  ∧ (∀ oid d w, fields_present b → cast = Some oid → doctor_of db oid = Some d →
     window_of d day = Some w → isTimeValid (str (b !! "time")) w = false →
     result = (Some (mkResponse 400 (message (msg_window v day w))), db))
  ∧ (∀ oid d w, fields_present b → cast = Some oid → doctor_of db oid = Some d →
     window_of d day = Some w → isTimeValid (str (b !! "time")) w = true →
     (∃ a, a ∈ appointments db
           ∧ Appointment.slot a = (oid, str (b !! "date"), str (b !! "time"))) →
     result = (Some (mkResponse 409 (message (msg_taken v))), db))
  ∧ (∀ oid d w, fields_present b → cast = Some oid → doctor_of db oid = Some d →
     window_of d day = Some w → isTimeValid (str (b !! "time")) w = true →
     (∀ a, a ∈ appointments db →
           Appointment.slot a ≠ (oid, str (b !! "date"), str (b !! "time"))) →
     result = (Some (mkResponse 201 (message (msg_booked v))),
               mkDB (users db) (doctors db)
                 (appointments db ++
                    [Appointment.mk oid (b !! "doctorName") (b !! "service")
                       (str (b !! "userName")) (str (b !! "userEmail"))
                       (str (b !! "date")) (str (b !! "time")) (now env)]))).
Proof.
  intros result day cast. subst result day cast. split; [apply book_missing|].
  split; [|split; [|split; [|split; [|split]]]].
  - intros Hf Hc. rewrite book_past_guard by done. by rewrite Hc.
  - intros oid Hf Hc Hd. rewrite book_past_guard by done. by rewrite Hc, Hd.
  - intros oid d Hf Hc Hd Hw. rewrite book_past_guard by done.
    by rewrite Hc, Hd, Hw.
  - intros oid d w Hf Hc Hd Hw Ht. rewrite book_past_guard by done.
    by rewrite Hc, Hd, Hw, Ht.
  - intros oid d w Hf Hc Hd Hw Ht [a Ha]%taken_Some.
    rewrite book_past_guard by done. unfold requested_slot.
    by rewrite Hc, Hd, Hw, Ht, Ha.
  - intros oid d w Hf Hc Hd Hw Ht Hfree. rewrite book_past_guard by done.
    assert (taken db (requested_slot oid b) = None) as Hnone.
    { apply taken_None. intros (a & Heq & Hin)%list_elem_of_fmap.
      by apply (Hfree a). }
    by rewrite Hc, Hd, Hw, Ht, Hnone.
Qed.

(** C10. Every outcome of [POST /appointment] other than 201 -- the five
    refusals and the 500 of the [catch] -- leaves the store untouched; the
    success path appends exactly the booked record to the appointments and
    changes nothing else. *)
Theorem book_atomic (castObjectId : string → option ObjectId)
    (weekdayShort : string → string) (v : Deployment)
    (env : Env) (b : gmap string string) (db : DB) :
  ∃ r db', run (appointment castObjectId weekdayShort v env b) db = (Some r, db')
    ∧ status r ∈ [400; 404; 409; 500; 201]%nat
    ∧ (status r ≠ 201%nat → db' = db)
    ∧ (status r = 201%nat →
       ∃ oid, castObjectId (str (b !! "doctorId")) = Some oid
              ∧ db' = mkDB (users db) (doctors db)
                        (appointments db ++ [booked oid env b])).
Proof.
  destruct (book_cases castObjectId weekdayShort v env b db);
    eexists _, _; (split; [reflexivity|]); simpl;
    (split; [repeat constructor|]); split; intros; try done.
  by eexists.
Qed.

(** Not every complete request whose [doctorId] is the identifier of no
    stored doctor is answered 404: one whose [doctorId] spells no identifier
    at all is answered 500. *)
Lemma unknown_doctor_not_always_404 :
  ¬ (∀ (b : gmap string string) (db : DB),
       fields_present b →
       (∀ d, d ∈ doctors db → Doctor._id d ≠ str (b !! "doctorId")) →
       status <$> (run (appointment castObjectId_hex weekdayShort_utc Standalone
                          demo_env b) db).1 = Some 404%nat).
Proof.
  intros H.
  specialize (H (<["doctorId" := "d9"]> (demo_booking "11:00")) demo_db).
  assert (status <$> (run (appointment castObjectId_hex weekdayShort_utc Standalone
                             demo_env (<["doctorId" := "d9"]> (demo_booking "11:00")))
                        demo_db).1 = Some 500%nat) as H500 by reflexivity.
  rewrite H in H500; [discriminate | vm_compute; tauto |].
  intros d Hd. apply list_elem_of_singleton in Hd as ->. discriminate.
Qed.

Lemma book_validation_order_witness :
  let ask b := run (appointment castObjectId_hex weekdayShort_utc Standalone
                      demo_env b) demo_db in
  ask (json_body [("doctorId", id_nair); ("time", "11:00")])
    = (Some (mkResponse 400 (message "Missing required fields")), demo_db)
  ∧ ask (<["doctorId" := "d9"]> (demo_booking "11:00"))
    = (Some (mkResponse 500 (message "Server error")), demo_db)
  ∧ ask (<["doctorId" := "65a000000000000000000009"]> (demo_booking "11:00"))
    = (Some (mkResponse 404 (message "Doctor not found")), demo_db)
  ∧ ask (<["date" := "2024-01-02"]> (demo_booking "11:00"))
    = (Some (mkResponse 400 (message "Doctor is not available on Tue")), demo_db)
  ∧ ask (demo_booking "09:00")
    = (Some (mkResponse 400
         (message "Doctor is available on Mon only between 10:00 and 14:00")), demo_db)
  ∧ ask (<["doctorId" := "65A000000000000000000001"]> (demo_booking "11:00"))
    = (Some (mkResponse 201 (message "Appointment booked successfully")),
       mkDB [] [dr_nair] [booked id_nair demo_env (demo_booking "11:00")]).
Proof.
  intros ask. subst ask.
  pose proof (book_validation_order castObjectId_hex weekdayShort_utc Standalone
                demo_env) as H.
  split; [|split; [|split; [|split; [|split]]]].
  - apply (proj1 (H (json_body [("doctorId", id_nair); ("time", "11:00")]) demo_db)).
    vm_compute. tauto.
  - apply (proj1 (proj2 (H (<["doctorId" := "d9"]> (demo_booking "11:00")) demo_db))).
    + vm_compute. tauto.
    + reflexivity.
  - apply (proj1 (proj2 (proj2 (H (<["doctorId" := "65a000000000000000000009"]>
                                      (demo_booking "11:00")) demo_db)))
             "65a000000000000000000009").
    + vm_compute. tauto.
    + reflexivity.
    + reflexivity.
  - etrans.
    + apply (proj1 (proj2 (proj2 (proj2
               (H (<["date" := "2024-01-02"]> (demo_booking "11:00")) demo_db))))
               id_nair dr_nair);
        [vm_compute; tauto | reflexivity ..].
    + vm_compute. reflexivity.
  - etrans.
    + apply (proj1 (proj2 (proj2 (proj2 (proj2 (H (demo_booking "09:00") demo_db)))))
               id_nair dr_nair (Slot.mk "Mon" "10:00" "14:00"));
        [vm_compute; tauto | reflexivity ..].
    + vm_compute. reflexivity.
  - etrans.
    + apply (proj2 (proj2 (proj2 (proj2 (proj2 (proj2
               (H (<["doctorId" := "65A000000000000000000001"]> (demo_booking "11:00"))
                  demo_db))))))
               id_nair dr_nair (Slot.mk "Mon" "10:00" "14:00"));
        [vm_compute; tauto | reflexivity | reflexivity | reflexivity | reflexivity |].
      intros a Ha. by apply elem_of_nil in Ha.
    + vm_compute. reflexivity.
Defined.

Lemma book_atomic_witness :
  after (appointment castObjectId_hex weekdayShort_utc Serverless demo_env
           (demo_booking "09:00")) demo_db
    = demo_db
  ∧ after (appointment castObjectId_hex weekdayShort_utc Serverless demo_env
             (<["doctorId" := "d9"]> (demo_booking "12:30"))) demo_db
    = demo_db
  ∧ appointments
      (after (appointment castObjectId_hex weekdayShort_utc Serverless demo_env
                (demo_booking "12:30")) demo_db)
    = [booked id_nair demo_env (demo_booking "12:30")].
Proof.
  split; [|split].
  - destruct (book_atomic castObjectId_hex weekdayShort_utc Serverless demo_env
                (demo_booking "09:00") demo_db) as (r & db' & Hrun & _ & Hfail & _).
    unfold after. rewrite Hrun. simpl. apply Hfail.
    vm_compute in Hrun. injection Hrun as <- _. simpl. lia.
  - destruct (book_atomic castObjectId_hex weekdayShort_utc Serverless demo_env
                (<["doctorId" := "d9"]> (demo_booking "12:30")) demo_db)
      as (r & db' & Hrun & _ & Hfail & _).
    unfold after. rewrite Hrun. simpl. apply Hfail.
    vm_compute in Hrun. injection Hrun as <- _. simpl. lia.
  - destruct (book_atomic castObjectId_hex weekdayShort_utc Serverless demo_env
                (demo_booking "12:30") demo_db) as (r & db' & Hrun & _ & _ & Hok).
    unfold after. rewrite Hrun. simpl.
    destruct Hok as (oid & Hcast & ->).
    { vm_compute in Hrun. injection Hrun as <- _. reflexivity. }
    injection Hcast as <-. reflexivity.
Defined.

Lemma append_assoc (a b c : string) : (a +:+ b) +:+ c = a +:+ b +:+ c.
Proof.
  induction a as [|x a IH]; [done|].
  change (String x ((a +:+ b) +:+ c) = String x (a +:+ b +:+ c)).
  by rewrite IH.
Qed.

Lemma msg_window_names v day w :
  ∃ pre mid, msg_window v day w = pre +:+ Slot.startTime w +:+ mid +:+ Slot.endTime w.
Proof.
  destruct v; simpl.
  - exists ("Doctor is available on " +:+ day +:+ " only between "), " and ".
    by rewrite !append_assoc.
  - by exists "Doctor available ", "-".
Qed.

(** C2. Once the doctor and a window for the weekday are found, the request
    is answered 400 exactly when the time lies lexically outside the closed
    interval of the window, and then the message names the window.  For a
    doctor whose only window is Mon 10:00-14:00 and a date that falls on a
    Monday: 09:00 is rejected with the window message; 11:00 and the two
    boundary times 10:00 and 14:00 pass the check (and are booked when the
    slot is free, refused as taken otherwise). *)
Theorem time_window_check (castObjectId : string → option ObjectId)
    (weekdayShort : string → string) (v : Deployment)
    (env : Env) (b : gmap string string) (db : DB) (oid : ObjectId)
    (d : Doctor.t) :
  let result := run (appointment castObjectId weekdayShort v env b) db in
  let day := day_of weekdayShort b in
  let time := str (b !! "time") in
  fields_present b →
  castObjectId (str (b !! "doctorId")) = Some oid →
  doctor_of db oid = Some d →
  (∀ w, window_of d day = Some w →
     (status <$> result.1 = Some 400%nat ↔ ¬ in_window time w)
     ∧ (¬ in_window time w →
        result = (Some (mkResponse 400 (message (msg_window v day w))), db))
     ∧ (∃ pre mid, msg_window v day w
                   = pre +:+ Slot.startTime w +:+ mid +:+ Slot.endTime w))
  ∧ (Doctor.availability d = [Slot.mk "Mon" "10:00" "14:00"] → day = "Mon" →
     (time = "09:00" →
      result = (Some (mkResponse 400
                        (message (msg_window v "Mon" (Slot.mk "Mon" "10:00" "14:00")))),
                db))
     ∧ (time ∈ ["11:00"; "10:00"; "14:00"] →
        result = match taken db (requested_slot oid b) with
                 | Some _ => (Some (mkResponse 409 (message (msg_taken v))), db)
                 | None =>
                     (Some (mkResponse 201 (message (msg_booked v))),
                      mkDB (users db) (doctors db)
                        (appointments db ++ [booked oid env b]))
                 end)).
Proof.
  intros result day time Hf Hc Hd. subst result.
  rewrite book_past_guard by done. rewrite Hc, Hd. fold day time. split.
  - intros w Hw. rewrite Hw. split; [|split].
    + rewrite <-isTimeValid_outside.
      destruct (isTimeValid time w); simpl; [|done].
      destruct (taken db _); simpl; split; intros; done.
    + intros Hout%isTimeValid_outside. by rewrite Hout.
    + apply msg_window_names.
  - intros Hav Hday. unfold window_of. rewrite Hav, Hday. simpl. split.
    + intros ->. reflexivity.
    + intros Ht. repeat (apply elem_of_cons in Ht as [->|Ht]; [reflexivity|]).
      by apply elem_of_nil in Ht.
Qed.

Lemma time_window_check_witness :
  let ask time :=
    run (appointment castObjectId_hex weekdayShort_utc Standalone demo_env
           (demo_booking time)) demo_db in
  ask "09:00"
    = (Some (mkResponse 400
         (message "Doctor is available on Mon only between 10:00 and 14:00")), demo_db)
  ∧ (ask "11:00").1 = Some (mkResponse 201 (message "Appointment booked successfully"))
  ∧ (ask "10:00").1 = Some (mkResponse 201 (message "Appointment booked successfully"))
  ∧ (ask "14:00").1 = Some (mkResponse 201 (message "Appointment booked successfully"))
  ∧ status <$> (ask "14:01").1 = Some 400%nat.
Proof.
  intros ask. subst ask.
  pose proof (λ time, time_window_check castObjectId_hex weekdayShort_utc Standalone
                        demo_env (demo_booking time) demo_db id_nair dr_nair) as H.
  split; [|split; [|split; [|split]]].
  - destruct (H "09:00") as [_ [Hbad _]];
      [vm_compute; tauto | reflexivity | reflexivity | reflexivity | reflexivity |].
    rewrite Hbad by reflexivity. reflexivity.
  - destruct (H "11:00") as [_ [_ Hok]];
      [vm_compute; tauto | reflexivity | reflexivity | reflexivity | reflexivity |].
    rewrite Hok by (repeat constructor). reflexivity.
  - destruct (H "10:00") as [_ [_ Hok]];
      [vm_compute; tauto | reflexivity | reflexivity | reflexivity | reflexivity |].
    rewrite Hok by (repeat constructor). reflexivity.
  - destruct (H "14:00") as [_ [_ Hok]];
      [vm_compute; tauto | reflexivity | reflexivity | reflexivity | reflexivity |].
    rewrite Hok by (repeat constructor). reflexivity.
  - destruct (H "14:01") as [Hgen _]; [vm_compute; tauto | reflexivity | reflexivity |].
    destruct (Hgen (Slot.mk "Mon" "10:00" "14:00")) as [Hiff _]; [reflexivity|].
    apply Hiff. rewrite <-isTimeValid_outside. reflexivity.
Defined.

(** ** First-match lookup of the availability window *)

Lemma find_first {A} (p : A → bool) (l1 l2 : list A) (x : A) :
  Forall (λ y, p y = false) l1 → p x = true → find p (l1 ++ x :: l2) = Some x.
Proof.
  induction 1 as [|y l1 Hy _ IH]; intros Hx; simpl.
  - by rewrite Hx.
  - rewrite Hy. by apply IH.
Qed.

Lemma find_app_None {A} (p : A → bool) (l1 l2 : list A) :
  find p l1 = None → find p (l1 ++ l2) = find p l2.
Proof.
  induction l1 as [|y l1 IH]; simpl; [done|].
  destruct (p y); [done | exact IH].
Qed.

Lemma window_of_first (d : Doctor.t) (day : string) (l1 : list Slot.t) w1 l2 :
  Doctor.availability d = (l1 ++ w1 :: l2)%list →
  Forall (λ s, Slot.day s ≠ day) l1 → Slot.day w1 = day →
  window_of d day = Some w1.
Proof.
  intros Hav Hl1 Hw1. unfold window_of. rewrite Hav. apply find_first.
  - eapply Forall_impl; [exact Hl1|]. intros s Hs. by apply String.eqb_neq.
  - by apply String.eqb_eq.
Qed.

(** C9. Only the first availability entry for the weekday is consulted:
    whatever follows it in the list, the outcome is decided by that entry
    alone.  So when the doctor has a later window on the same weekday and the
    requested time lies inside the later window but outside the first one,
    the request is answered 400 with the first window's range. *)
Theorem first_window_only (castObjectId : string → option ObjectId)
    (weekdayShort : string → string) (v : Deployment)
    (env : Env) (b : gmap string string) (db : DB) (oid : ObjectId)
    (d : Doctor.t) (l1 l2 : list Slot.t) (w1 : Slot.t) :
  let result := run (appointment castObjectId weekdayShort v env b) db in
  let day := day_of weekdayShort b in
  let time := str (b !! "time") in
  fields_present b →
  castObjectId (str (b !! "doctorId")) = Some oid →
  doctor_of db oid = Some d →
  Doctor.availability d = (l1 ++ w1 :: l2)%list →
  Forall (λ s, Slot.day s ≠ day) l1 → Slot.day w1 = day →
  window_of d day = Some w1
  ∧ result =
      (if isTimeValid time w1 then
         match taken db (requested_slot oid b) with
         | Some _ => (Some (mkResponse 409 (message (msg_taken v))), db)
         | None =>
             (Some (mkResponse 201 (message (msg_booked v))),
              mkDB (users db) (doctors db) (appointments db ++ [booked oid env b]))
         end
       else (Some (mkResponse 400 (message (msg_window v day w1))), db))
  ∧ (∀ w2, w2 ∈ l2 → Slot.day w2 = day →
       in_window time w2 → ¬ in_window time w1 →
       result = (Some (mkResponse 400 (message (msg_window v day w1))), db)).
Proof.
  intros result day time Hf Hc Hd Hav Hl1 Hw1. subst result.
  pose proof (window_of_first d day l1 w1 l2 Hav Hl1 Hw1) as Hw.
  rewrite book_past_guard by done. rewrite Hc, Hd. fold day time. rewrite Hw.
  split; [done|]. split; [done|].
  intros w2 _ _ _ Hout%isTimeValid_outside. by rewrite Hout.
Qed.

Lemma first_window_only_witness :
  let req := json_body [ ("doctorId", id_split); ("userName", "Asha");
                         ("userEmail", "asha@example.org");
                         ("date", "2024-01-01"); ("time", "15:00") ] in
  run (appointment castObjectId_hex weekdayShort_utc Serverless demo_env req) split_db
    = (Some (mkResponse 400 (message "Doctor available 09:00-12:00")), split_db).
Proof.
  intros req.
  destruct (first_window_only castObjectId_hex weekdayShort_utc Serverless demo_env
              req split_db id_split
              dr_split [Slot.mk "Tue" "11:00" "16:00"] [Slot.mk "Mon" "14:00" "18:00"]
              (Slot.mk "Mon" "09:00" "12:00")) as (_ & _ & Hlater).
  - vm_compute. tauto.
  - reflexivity.
  - reflexivity.
  - reflexivity.
  - repeat constructor. vm_compute. discriminate.
  - reflexivity.
  - rewrite (Hlater (Slot.mk "Mon" "14:00" "18:00")).
    + reflexivity.
    + repeat constructor.
    + reflexivity.
    + apply isTimeValid_in_window. reflexivity.
    + apply isTimeValid_outside. reflexivity.
Defined.

(** ** Uniqueness of booked slots *)

Lemma slots_distinct_insert db a :
  slots_distinct db → taken db (Appointment.slot a) = None →
  slots_distinct (mkDB (users db) (doctors db) (appointments db ++ [a])).
Proof.
  unfold slots_distinct. simpl. intros Hnd Hfree%taken_None.
  rewrite fmap_app. simpl. apply NoDup_app. split; [done|]. split.
  - intros sl Hsl ->%list_elem_of_singleton. done.
  - apply NoDup_singleton.
Qed.

Lemma taken_insert db a :
  taken db (Appointment.slot a) = None →
  taken (mkDB (users db) (doctors db) (appointments db ++ [a])) (Appointment.slot a)
    = Some a.
Proof.
  unfold taken. simpl. intros Hfree. rewrite find_app_None by done. simpl.
  assert (same_slot (Appointment.doctorId a) (Appointment.date a)
            (Appointment.time a) a = true) as ->; [|done].
  by apply same_slot_spec.
Qed.

Lemma booked_slot oid env b :
  Appointment.slot (booked oid env b) = requested_slot oid b.
Proof. reflexivity. Qed.

(** How many stored appointments occupy a slot. *)
Lemma count_slot_free db sl :
  taken db sl = None →
  List.length (filter (λ a, Appointment.slot a = sl) (appointments db)) = 0%nat.
Proof.
  intros Hfree%taken_None.
  induction (appointments db) as [|a l IH]; [done|].
  simpl in Hfree. apply not_elem_of_cons in Hfree as [Hne Hl].
  rewrite filter_cons_False by done. by apply IH.
Qed.

Section Operations.

Variable bcrypt_hash : string → string → string.
Variable bcrypt_compare : string → string → bool.
Variable castObjectId : string → option ObjectId.
Variable weekdayShort : string → string.
Variables (v : Deployment) (env : Env).

Abbreviation step := (exec bcrypt_hash bcrypt_compare castObjectId weekdayShort v env).

(** Only [POST /appointment] writes to the appointment collection. *)
Lemma other_calls_keep_appointments c db :
  (∀ b, c ≠ PostAppointment b) → appointments (step c db).2 = appointments db.
Proof.
  intros Hc. destruct c as [b|b| |b|b| |].
  - unfold_handler.
    destruct (list_find (λ u, User.email u = b !! "email") (users db)) as [[i u]|]; [done|].
    by destruct (b !! "password").
  - unfold_handler.
    destruct (list_find (λ u, User.email u = b !! "email") (users db)) as [[i u]|]; [|done].
    destruct (b !! "password"); [|done]. by destruct (negb _).
  - done.
  - unfold_handler. destruct (reset_fields_missing _ _ _); [done|].
    destruct (list_find (λ u, User.email u = b !! "email") (users db)) as [[i u]|]; [|done].
    by destruct (b !! "password").
  - by destruct (Hc b).
  - done.
  - unfold_handler. by destruct (0 <? _)%nat.
Qed.

(** Every route answers every request. *)
Lemma routes_answer c db :
  c ≠ PreloadDoctors → ∃ r, (step c db).1 = Some r.
Proof.
  intros Hc. destruct c as [b|b| |b|b| |]; try done.
  - unfold_handler.
    destruct (list_find (λ u, User.email u = b !! "email") (users db)) as [[i u]|];
      [by eexists|].
    destruct (b !! "password"); by eexists.
  - unfold_handler.
    destruct (list_find (λ u, User.email u = b !! "email") (users db)) as [[i u]|];
      [|by eexists].
    destruct (b !! "password"); [|by eexists]. destruct (negb _); by eexists.
  - by eexists.
  - unfold_handler. destruct (reset_fields_missing _ _ _); [by eexists|].
    destruct (list_find (λ u, User.email u = b !! "email") (users db)) as [[i u]|];
      [|by eexists].
    destruct (b !! "password"); by eexists.
  - unfold exec, handler.
    destruct (book_cases castObjectId weekdayShort v env b db); by eexists.
  - by eexists.
Qed.

Lemma step_keeps_slots_distinct c db :
  slots_distinct db → slots_distinct (step c db).2.
Proof.
  intros Hinv. destruct c as [b|b| |b|b| |];
    try (unfold slots_distinct;
         rewrite other_calls_keep_appointments by (intros b'; discriminate); done).
  unfold exec, handler.
  destruct (book_cases castObjectId weekdayShort v env b db); simpl; try done.
  apply slots_distinct_insert; [done|]. by rewrite booked_slot.
Qed.

End Operations.

(** C1. Every operation, run to completion, keeps the (doctorId, date, time)
    triples of the stored appointments pairwise distinct.  [POST /appointment]
    is the only operation that touches the appointment collection: it stores
    a record only when no stored appointment has the requested triple, and
    answers 409 when one has.  Booking a slot and then asking for the same
    slot again therefore leaves exactly one record for it, the second
    request being answered 409 when it is complete.  The doctor of a triple
    is the [ObjectId] the [doctorId] of the request casts to. *)
Theorem slot_uniqueness (bcrypt_hash : string → string → string)
    (bcrypt_compare : string → string → bool)
    (castObjectId : string → option ObjectId) (weekdayShort : string → string)
    (v : Deployment) (env : Env) (db : DB) :
  let step := exec bcrypt_hash bcrypt_compare castObjectId weekdayShort v in
  let cast b := castObjectId (str (b !! "doctorId")) in
  (∀ c, slots_distinct db → slots_distinct (step env c db).2)
  ∧ (∀ c, (∀ b, c ≠ PostAppointment b) →
       appointments (step env c db).2 = appointments db)
  ∧ (∀ b, (step env (PostAppointment b) db).2 = db
          ∨ (∃ oid, cast b = Some oid
             ∧ taken db (requested_slot oid b) = None
             ∧ step env (PostAppointment b) db
               = (Some (mkResponse 201 (message (msg_booked v))),
                  mkDB (users db) (doctors db)
                    (appointments db ++ [booked oid env b]))))
  ∧ (∀ b oid a, cast b = Some oid → taken db (requested_slot oid b) = Some a →
       (step env (PostAppointment b) db).2 = db
       ∧ status <$> (step env (PostAppointment b) db).1 ≠ Some 201%nat
       ∧ (∀ d w, fields_present b →
            doctor_of db oid = Some d →
            window_of d (day_of weekdayShort b) = Some w →
            isTimeValid (str (b !! "time")) w = true →
            (step env (PostAppointment b) db).1
              = Some (mkResponse 409 (message (msg_taken v)))))
  ∧ (∀ b env' b' oid,
       status <$> (step env (PostAppointment b) db).1 = Some 201%nat →
       cast b = Some oid → cast b' = Some oid →
       requested_slot oid b' = requested_slot oid b →
       let db1 := (step env (PostAppointment b) db).2 in
       let second := step env' (PostAppointment b') db1 in
       List.length (filter (λ a, Appointment.slot a = requested_slot oid b)
                      (appointments second.2)) = 1%nat
       ∧ second.2 = db1
       ∧ (fields_present b' →
          second.1 = Some (mkResponse 409 (message (msg_taken v))))).
Proof.
  intros step cast. subst step cast. split; [|split; [|split; [|split]]].
  - intros c. apply step_keeps_slots_distinct.
  - intros c. apply other_calls_keep_appointments.
  - intros b. unfold exec, handler.
    destruct (book_cases castObjectId weekdayShort v env b db); simpl; eauto.
  - intros b oid a Hc Ha. unfold exec, handler. split; [|split].
    + destruct (book_cases castObjectId weekdayShort v env b db); simpl; try done.
      congruence.
    + destruct (book_cases castObjectId weekdayShort v env b db); simpl; try done.
      congruence.
    + intros d w Hf Hd Hw Ht. rewrite book_past_guard by done.
      by rewrite Hc, Hd, Hw, Ht, Ha.
  - intros b env' b' oid Hok Hc Hc' Hslot. unfold exec, handler in *.
    destruct (book_cases castObjectId weekdayShort v env b db)
      as [| | | | | |oid0 d w Hf Hc0 Hd Hw Ht Hfree];
      simpl in Hok; try done.
    assert (oid0 = oid) as -> by congruence.
    simpl. set (db1 := mkDB _ _ _).
    assert (taken db1 (requested_slot oid b') = Some (booked oid env b)) as Htaken.
    { rewrite Hslot, <-(booked_slot oid env b). apply taken_insert.
      by rewrite booked_slot. }
    assert (doctor_of db1 oid = Some d) as Hd' by exact Hd.
    assert (day_of weekdayShort b' = day_of weekdayShort b) as Hday.
    { unfold day_of. injection Hslot as -> _. done. }
    assert (str (b' !! "time") = str (b !! "time")) as Htime.
    { by injection Hslot. }
    assert (run (appointment castObjectId weekdayShort v env' b') db1 =
            (if decide (fields_present b')
             then Some (mkResponse 409 (message (msg_taken v)))
             else Some (mkResponse 400 (message "Missing required fields")), db1))
      as Hrun.
    { destruct (decide (fields_present b')) as [Hf'|Hf'].
      - rewrite book_past_guard by done.
        by rewrite Hc', Hd', Hday, Hw, Htime, Ht, Htaken.
      - by apply book_missing. }
    rewrite Hrun. simpl. split; [|split; [done|]].
    + unfold db1. simpl. rewrite filter_app, length_app.
      rewrite count_slot_free by done.
      rewrite filter_cons_True by apply booked_slot. done.
    + intros Hf'. by rewrite decide_True.
Qed.

Lemma slot_uniqueness_witness :
  let step := exec demo_hash demo_compare castObjectId_hex weekdayShort_utc
                Standalone demo_env in
  let first := step (PostAppointment (demo_booking "11:00")) demo_db in
  let again := <["doctorId" := "65A000000000000000000001"]> (demo_booking "11:00") in
  let second := step (PostAppointment again) first.2 in
  slots_distinct first.2
  ∧ second.1 = Some (mkResponse 409
                       (message "Doctor already has an appointment at this time"))
  ∧ appointments second.2 = [booked id_nair demo_env (demo_booking "11:00")].
Proof.
  intros step first again second. subst step first second.
  destruct (slot_uniqueness demo_hash demo_compare castObjectId_hex weekdayShort_utc
              Standalone demo_env demo_db) as (Hinv & _ & _ & _ & Htwice).
  split; [|split].
  - apply Hinv. apply NoDup_nil_2.
  - destruct (Htwice (demo_booking "11:00") demo_env again id_nair)
      as (_ & _ & Hsecond); [reflexivity ..|].
    apply Hsecond. vm_compute. tauto.
  - destruct (Htwice (demo_booking "11:00") demo_env again id_nair)
      as (_ & Hsame & _); [reflexivity ..|].
    rewrite Hsame. reflexivity.
Defined.

(** ** Listing appointments *)

Global Instance newer_first_trans : Transitive newer_first.
Proof. unfold newer_first. intros a b c. lia. Qed.

Global Instance newer_first_total : Total newer_first.
Proof. unfold newer_first. intros a b. lia. Qed.

Lemma run_getAppointments db :
  run getAppointments db
    = (Some (mkResponse 200
               (AppointmentDocs (merge_sort newer_first (appointments db)))), db).
Proof. reflexivity. Qed.

Lemma book_success castObjectId weekdayShort v env b db :
  status <$> (run (appointment castObjectId weekdayShort v env b) db).1
    = Some 201%nat →
  ∃ oid, castObjectId (str (b !! "doctorId")) = Some oid
         ∧ (run (appointment castObjectId weekdayShort v env b) db).2
           = mkDB (users db) (doctors db) (appointments db ++ [booked oid env b]).
Proof.
  destruct (book_cases castObjectId weekdayShort v env b db); simpl; intros [=].
  by eexists.
Qed.

Lemma newest_first_three (a1 a2 a3 : Appointment.t) :
  (Appointment.createdAt a1 < Appointment.createdAt a2)%Z →
  (Appointment.createdAt a2 < Appointment.createdAt a3)%Z →
  merge_sort newer_first [a1; a2; a3] = [a3; a2; a1].
Proof.
  intros H12 H23.
  apply (StronglySorted_unique_strong newer_first).
  - intros x y Hx Hy Hxy Hyx. unfold newer_first in *.
    rewrite merge_sort_Permutation in Hx.
    assert (Appointment.createdAt x = Appointment.createdAt y) as Heq by lia.
    repeat (apply elem_of_cons in Hx as [->|Hx]);
      repeat (apply elem_of_cons in Hy as [->|Hy]);
      try done; try lia; by apply elem_of_nil in Hx || by apply elem_of_nil in Hy.
  - apply StronglySorted_merge_sort; apply _.
  - unfold newer_first. repeat constructor; lia.
  - rewrite merge_sort_Permutation.
    change [a3; a2; a1] with (reverse [a1; a2; a3]). by rewrite reverse_Permutation.
Qed.

(** C6. [GET /appointments] returns every stored appointment, later
    creation first.  After three successful bookings into an empty
    collection, made at clock readings T1 < T2 < T3, the list returned is the
    third, the second, the first. *)
Theorem listing_newest_first (castObjectId : string → option ObjectId)
    (weekdayShort : string → string) (v : Deployment)
    (db : DB) :
  (∃ l, run getAppointments db = (Some (mkResponse 200 (AppointmentDocs l)), db)
        ∧ l ≡ₚ appointments db
        ∧ StronglySorted newer_first l)
  ∧ (∀ env1 env2 env3 b1 b2 b3,
       let s1 := run (appointment castObjectId weekdayShort v env1 b1) db in
       let s2 := run (appointment castObjectId weekdayShort v env2 b2) s1.2 in
       let s3 := run (appointment castObjectId weekdayShort v env3 b3) s2.2 in
       appointments db = [] →
       status <$> s1.1 = Some 201%nat →
       status <$> s2.1 = Some 201%nat →
       status <$> s3.1 = Some 201%nat →
       (now env1 < now env2)%Z → (now env2 < now env3)%Z →
       ∃ oid1 oid2 oid3,
         castObjectId (str (b1 !! "doctorId")) = Some oid1
         ∧ castObjectId (str (b2 !! "doctorId")) = Some oid2
         ∧ castObjectId (str (b3 !! "doctorId")) = Some oid3
         ∧ (run getAppointments s3.2).1
           = Some (mkResponse 200
                     (AppointmentDocs
                        [booked oid3 env3 b3; booked oid2 env2 b2;
                         booked oid1 env1 b1]))).
Proof.
  split.
  - exists (merge_sort newer_first (appointments db)). split; [done|]. split.
    + apply merge_sort_Permutation.
    + apply StronglySorted_merge_sort; apply _.
  - intros env1 env2 env3 b1 b2 b3 s1 s2 s3 Hempty H1 H2 H3 H12 H23.
    destruct (book_success _ _ _ _ _ _ H3) as (oid3 & Hc3 & Hs3).
    destruct (book_success _ _ _ _ _ _ H2) as (oid2 & Hc2 & Hs2).
    destruct (book_success _ _ _ _ _ _ H1) as (oid1 & Hc1 & Hs1).
    exists oid1, oid2, oid3. repeat (split; [done|]).
    rewrite run_getAppointments. simpl. do 2 f_equal. f_equal.
    subst s3. rewrite Hs3. subst s2. rewrite Hs2. subst s1. rewrite Hs1.
    simpl. rewrite Hempty. simpl. by apply newest_first_three.
Qed.

Lemma listing_newest_first_witness :
  let at_ t := mkEnv "c2FsdA" t (newId demo_env) in
  let book t time db :=
    (run (appointment castObjectId_hex weekdayShort_utc Standalone (at_ t)
            (demo_booking time)) db).2 in
  (run getAppointments (book 30 "13:00" (book 20 "10:30" (book 10 "12:00" demo_db)))).1
    = Some (mkResponse 200
              (AppointmentDocs [booked id_nair (at_ 30) (demo_booking "13:00");
                                booked id_nair (at_ 20) (demo_booking "10:30");
                                booked id_nair (at_ 10) (demo_booking "12:00")])).
Proof.
  intros at_ book. subst book.
  destruct (proj2 (listing_newest_first castObjectId_hex weekdayShort_utc Standalone
                     demo_db)
              (at_ 10) (at_ 20) (at_ 30)
              (demo_booking "12:00") (demo_booking "10:30") (demo_booking "13:00"))
    as (oid1 & oid2 & oid3 & [= <-] & [= <-] & [= <-] & Hlist);
    first [reflexivity | simpl; lia | exact Hlist].
Defined.

(** ** Accounts *)

Lemma user_of_None db email :
  user_of db email = None ↔ ∀ u, u ∈ users db → User.email u ≠ email.
Proof. unfold user_of. rewrite list_find_None, Forall_forall. done. Qed.

Lemma user_of_Some db email i u :
  user_of db email = Some (i, u) →
  users db !! i = Some u ∧ User.email u = email.
Proof. unfold user_of. intros (Hi & Hu & _)%list_find_Some. done. Qed.

Lemma user_of_exists db email :
  (∃ u, u ∈ users db ∧ User.email u = email) → ∃ i u, user_of db email = Some (i, u).
Proof.
  intros (u & Hin & Hu). unfold user_of.
  destruct (list_find_elem_of (λ u, User.email u = email) (users db) u Hin Hu)
    as [[i u'] Hfind].
  by exists i, u'.
Qed.

Section Accounts.

Variable bcrypt_hash : string → string → string.
Variable bcrypt_compare : string → string → bool.
Variables (env : Env) (b : gmap string string) (db : DB).

Lemma register_exists i u :
  user_of db (b !! "email") = Some (i, u) →
  run (register bcrypt_hash env b) db
    = (Some (mkResponse 409 (message "User already exists")), db).
Proof. unfold user_of. intros H. unfold_handler. by rewrite H. Qed.

Lemma register_new p :
  user_of db (b !! "email") = None → b !! "password" = Some p →
  run (register bcrypt_hash env b) db
    = (Some (mkResponse 201 (message "User registered successfully")),
       mkDB (users db ++ [User.mk (b !! "name") (b !! "email")
                            (bcrypt_hash p (salt env))])
            (doctors db) (appointments db)).
Proof. unfold user_of. intros H Hp. unfold_handler. by rewrite H, Hp. Qed.

Lemma register_no_password :
  user_of db (b !! "email") = None → b !! "password" = None →
  run (register bcrypt_hash env b) db
    = (Some (mkResponse 500 (message "Server error")), db).
Proof. unfold user_of. intros H Hp. unfold_handler. by rewrite H, Hp. Qed.

Lemma signin_unknown :
  user_of db (b !! "email") = None →
  run (signin bcrypt_compare b) db
    = (Some (mkResponse 401 (message "Invalid email or password")), db).
Proof. unfold user_of. intros H. unfold_handler. by rewrite H. Qed.

Lemma signin_known i u p :
  user_of db (b !! "email") = Some (i, u) → b !! "password" = Some p →
  run (signin bcrypt_compare b) db
    = (Some (if bcrypt_compare p (User.password u)
             then mkResponse 200
                    (Json (JObj [ ("message", JStr "Sign-in successful");
                                  ("user", JObj (member "name" (User.name u) ++
                                                 member "email" (User.email u))) ]))
             else mkResponse 401 (message "Invalid email or password")), db).
Proof.
  unfold user_of. intros H Hp. unfold_handler. rewrite H, Hp.
  by destruct (bcrypt_compare p (User.password u)).
Qed.

Lemma signin_no_password i u :
  user_of db (b !! "email") = Some (i, u) → b !! "password" = None →
  run (signin bcrypt_compare b) db
    = (Some (mkResponse 500 (message "Server error")), db).
Proof. unfold user_of. intros H Hp. unfold_handler. by rewrite H, Hp. Qed.


Lemma reset_guard_passed v :
  (v = Standalone → truthy (b !! "email") ∧ truthy (b !! "password")) →
  reset_fields_missing v (b !! "email") (b !! "password") = false.
Proof.
  destruct v; [|done]. intros [He Hp]; [done|]. simpl.
  by destruct (truthy (b !! "email")), (truthy (b !! "password")).
Qed.

Lemma reset_unknown v :
  reset_fields_missing v (b !! "email") (b !! "password") = false →
  user_of db (b !! "email") = None →
  run (resetpassword bcrypt_hash v env b) db
    = (Some (mkResponse 404 (message "User not found")), db).
Proof.
  unfold user_of. intros Hg H. unfold resetpassword. rewrite Hg.
  unfold_handler. by rewrite H.
Qed.

Lemma reset_known v i u p :
  reset_fields_missing v (b !! "email") (b !! "password") = false →
  user_of db (b !! "email") = Some (i, u) → b !! "password" = Some p →
  run (resetpassword bcrypt_hash v env b) db
    = (Some (mkResponse 200 (message "Password reset successfully")),
       mkDB (<[i := User.mk (User.name u) (User.email u) (bcrypt_hash p (salt env))]>
               (users db))
            (doctors db) (appointments db)).
Proof.
  unfold user_of. intros Hg H Hp. unfold resetpassword. rewrite Hg.
  unfold_handler. by rewrite H, Hp.
Qed.


End Accounts.







(** C8. [preloadDoctors] writes nothing when the doctor collection is not
    empty, and fills an empty collection with the fixed list of the
    deployment; running it a second time changes nothing. *)
Theorem seed_idempotent (v : Deployment) (env : Env) (db : DB) :
  let seeded := (run (preloadDoctors v env) db).2 in
  (doctors db ≠ [] → seeded = db)
  ∧ (doctors db = [] →
     seeded = mkDB (users db) (imap (λ i d, d (newId env i)) (seed v))
                (appointments db))
  ∧ (∀ env', (run (preloadDoctors v env') seeded).2 = seeded).
Proof.
  assert (∀ e d, doctors d ≠ [] → (run (preloadDoctors v e) d).2 = d) as Hfull.
  { intros e d Hd. unfold_handler.
    destruct (doctors d) as [|x l] eqn:Hl; [done|]. done. }
  assert (doctors db = [] →
          (run (preloadDoctors v env) db).2
            = mkDB (users db) (imap (λ i d, d (newId env i)) (seed v))
                (appointments db)) as Hempty.
  { intros Hd. unfold_handler. rewrite Hd. simpl. by rewrite Hd. }
  intros seeded. subst seeded. split; [by apply Hfull|]. split; [done|].
  intros env'. destruct (doctors db) as [|x l] eqn:Hd.
  - rewrite Hempty by done. apply Hfull. by destruct v.
  - rewrite (Hfull env db) by (by rewrite Hd). apply Hfull. by rewrite Hd.
Qed.

Lemma seed_idempotent_witness :
  (run (preloadDoctors Standalone demo_env) demo_db).2 = demo_db
  ∧ List.length (doctors (run (preloadDoctors Standalone demo_env) emptyDB).2) = 5%nat.
Proof.
  split.
  - apply (proj1 (seed_idempotent Standalone demo_env demo_db)). discriminate.
  - rewrite (proj1 (proj2 (seed_idempotent Standalone demo_env emptyDB)));
      reflexivity.
Defined.

(** ** What a call can write *)

Section Writes.

Variable bcrypt_hash : string → string → string.
Variable bcrypt_compare : string → string → bool.
Variable castObjectId : string → option ObjectId.
Variable weekdayShort : string → string.
Variables (v : Deployment) (env : Env).

Lemma exec_writes c db :
  Write castObjectId weekdayShort v db
    (exec bcrypt_hash bcrypt_compare castObjectId weekdayShort v env c db).2.
Proof.
  destruct c as [b|b| |b|b| |].
  - unfold exec, handler.
    destruct (user_of db (b !! "email")) as [[i u]|] eqn:Hu.
    + rewrite (register_exists _ _ _ _ i u) by done. constructor.
    + destruct (b !! "password") as [p|] eqn:Hp.
      * rewrite (register_new _ _ _ _ p) by done. simpl.
        apply Write_user. simpl. by apply user_of_None.
      * rewrite register_no_password by done. constructor.
  - unfold exec, handler.
    destruct (user_of db (b !! "email")) as [[i u]|] eqn:Hu.
    + destruct (b !! "password") as [p|] eqn:Hp.
      * rewrite (signin_known _ _ _ i u p) by done. constructor.
      * rewrite (signin_no_password _ _ _ i u) by done. constructor.
    + rewrite signin_unknown by done. constructor.
  - constructor.
  - unfold exec, handler.
    destruct (reset_fields_missing v (b !! "email") (b !! "password")) eqn:Hg.
    { unfold resetpassword. rewrite Hg. constructor. }
    destruct (user_of db (b !! "email")) as [[i u]|] eqn:Hu.
    + destruct (b !! "password") as [p|] eqn:Hp; rewrite <-Hp in Hg.
      * rewrite (reset_known _ _ _ _ _ i u p) by done. simpl.
        apply Write_password. by apply user_of_Some in Hu as [? _].
      * unfold resetpassword. rewrite Hg. unfold_handler.
        unfold user_of in Hu. rewrite Hu, Hp. constructor.
    + rewrite reset_unknown by done. constructor.
  - unfold exec, handler.
    destruct (book_cases castObjectId weekdayShort v env b db); simpl;
      try constructor. by eapply Write_booking.
  - constructor.
  - unfold exec, handler. unfold_handler.
    destruct (doctors db) as [|x l] eqn:Hd; simpl.
    + by apply Write_seed.
    + constructor.
Qed.

End Writes.

(** ** Invariants of the store *)

Lemma find_app_Some {A} (p : A → bool) (l1 l2 : list A) (x : A) :
  find p l1 = Some x → find p (l1 ++ l2) = Some x.
Proof.
  induction l1 as [|y l1 IH]; simpl; [done|].
  destruct (p y); [done | exact IH].
Qed.

Lemma truthy_str x : truthy x → str x ≠ "".
Proof.
  destruct x as [s|]; simpl; [|done].
  destruct (String.eqb_spec s ""); simpl; done.
Qed.

Lemma appointment_valid_grows castObjectId weekdayShort db db' a :
  (∃ k, doctors db' = (doctors db ++ k)%list) →
  appointment_valid castObjectId weekdayShort db a →
  appointment_valid castObjectId weekdayShort db' a.
Proof.
  intros [k Hk] (H1 & H2 & H3 & H4 & H5 & d & w & Hd & Hw & Hin).
  repeat (split; [done|]). exists d, w. split; [|done].
  unfold doctor_of in *. rewrite Hk. by apply find_app_Some.
Qed.

Lemma booked_valid castObjectId weekdayShort env b db oid d w :
  fields_present b →
  castObjectId (str (b !! "doctorId")) = Some oid →
  doctor_of db oid = Some d →
  window_of d (day_of weekdayShort b) = Some w →
  isTimeValid (str (b !! "time")) w = true →
  appointment_valid castObjectId weekdayShort db (booked oid env b).
Proof.
  intros (H1 & H2 & H3 & H4 & H5) Hc Hd Hw Ht. unfold appointment_valid. simpl.
  split. { exists (str (b !! "doctorId")). split; [by apply truthy_str | done]. }
  repeat (split; [by apply truthy_str|]).
  exists d, w. split; [done|]. split; [done|]. by apply isTimeValid_in_window.
Qed.

Lemma write_keeps_emails_distinct castObjectId weekdayShort v db db' :
  Write castObjectId weekdayShort v db db' → emails_distinct db → emails_distinct db'.
Proof.
  unfold emails_distinct.
  destruct 1 as [|u Hfresh|i u hashed Hi| |]; simpl; try done.
  - intros Hnd. rewrite fmap_app. simpl. apply NoDup_app. split; [done|]. split.
    + intros e (u' & -> & Hu')%list_elem_of_fmap Heq%list_elem_of_singleton.
      by apply (Hfresh u').
    + apply NoDup_singleton.
  - intros Hnd. rewrite list_fmap_insert. simpl.
    rewrite list_insert_id; [done|]. by rewrite list_lookup_fmap, Hi.
Qed.

Lemma write_keeps_slots_distinct castObjectId weekdayShort v db db' :
  Write castObjectId weekdayShort v db db' → slots_distinct db → slots_distinct db'.
Proof.
  destruct 1; try done.
  intros Hnd. apply slots_distinct_insert; [done|]. by rewrite booked_slot.
Qed.

Lemma write_keeps_appointments_valid castObjectId weekdayShort v db db' :
  Write castObjectId weekdayShort v db db' →
  appointments_valid castObjectId weekdayShort db →
  appointments_valid castObjectId weekdayShort db'.
Proof.
  unfold appointments_valid.
  destruct 1
    as [|u Hfresh|i u hashed Hi|newId Hempty|env b oid d w Hf Hc Hd Hw Ht Hfree];
    simpl; try done.
  - intros Hall. eapply Forall_impl; [exact Hall|]. intros a.
    apply appointment_valid_grows. eexists. simpl. reflexivity.
  - intros Hall. apply Forall_app. split.
    + eapply Forall_impl; [exact Hall|]. intros a.
      apply appointment_valid_grows. exists []. simpl. by rewrite app_nil_r.
    + apply Forall_singleton.
      apply (appointment_valid_grows castObjectId weekdayShort db);
        [exists []; simpl; by rewrite app_nil_r|].
      by eapply booked_valid.
Qed.

(** X1. Every call keeps the emails of the stored users pairwise distinct:
    [POST /register] stores a user only under an email that [User.findOne]
    did not find, and [POST /resetpassword] writes the password alone. *)
Theorem emails_stay_distinct (bcrypt_hash : string → string → string)
    (bcrypt_compare : string → string → bool)
    (castObjectId : string → option ObjectId) (weekdayShort : string → string)
    (v : Deployment) (env : Env) (c : Call) (db : DB) :
  emails_distinct db →
  emails_distinct
    (exec bcrypt_hash bcrypt_compare castObjectId weekdayShort v env c db).2.
Proof.
  apply (write_keeps_emails_distinct castObjectId weekdayShort v). apply exec_writes.
Qed.

Lemma emails_stay_distinct_witness :
  emails_distinct
    (exec demo_hash demo_compare castObjectId_hex weekdayShort_utc Standalone demo_env
       (PostRegister (json_body [ ("name", "Meera"); ("email", "meera@example.org");
                                  ("password", "tr0ub4dor") ]))
       users_db).2.
Proof.
  apply emails_stay_distinct. unfold emails_distinct. simpl.
  repeat (apply NoDup_cons; split; [rewrite ?elem_of_cons, ?elem_of_nil; intuition discriminate|]).
  apply NoDup_nil_2.
Defined.

(** X2. Every stored appointment stays one the booking checks accept: its
    required fields are non-empty (its [doctorId] being what a non-empty
    string casts to), its doctor is in the store, and its time
    lies in the window that the doctor's availability gives for the weekday
    of its date.  Every call keeps this, since bookings are stored only past
    the checks and doctors are never removed or changed. *)
Theorem appointments_stay_valid (bcrypt_hash : string → string → string)
    (bcrypt_compare : string → string → bool)
    (castObjectId : string → option ObjectId) (weekdayShort : string → string)
    (v : Deployment) (env : Env) (c : Call) (db : DB) :
  appointments_valid castObjectId weekdayShort db →
  appointments_valid castObjectId weekdayShort
    (exec bcrypt_hash bcrypt_compare castObjectId weekdayShort v env c db).2.
Proof.
  apply (write_keeps_appointments_valid castObjectId weekdayShort v).
  apply exec_writes.
Qed.

Lemma appointments_stay_valid_witness :
  let step b := exec demo_hash demo_compare castObjectId_hex weekdayShort_utc
                  Standalone demo_env (PostAppointment (demo_booking b)) in
  appointments_valid castObjectId_hex weekdayShort_utc
    (step "12:00" (step "11:00" demo_db).2).2.
Proof.
  intros step. subst step. apply appointments_stay_valid.
  apply Forall_singleton. unfold appointment_valid.
  split. { exists id_nair. split; [discriminate | reflexivity]. }
  repeat (split; [discriminate|]).
  exists dr_nair, (Slot.mk "Mon" "10:00" "14:00").
  split; [reflexivity|]. split; [reflexivity|].
  apply isTimeValid_in_window. reflexivity.
Defined.

(** X3. No call removes, reorders or rewrites a stored doctor or
    appointment, and no call removes a user or changes a user's name or
    email: each collection after a call extends the one before it (for
    users, up to the password). *)
Theorem nothing_is_deleted (bcrypt_hash : string → string → string)
    (bcrypt_compare : string → string → bool)
    (castObjectId : string → option ObjectId) (weekdayShort : string → string)
    (v : Deployment) (env : Env) (c : Call) (db : DB) :
  let db' :=
    (exec bcrypt_hash bcrypt_compare castObjectId weekdayShort v env c db).2 in
  appointments db `prefix_of` appointments db'
  ∧ doctors db `prefix_of` doctors db'
  ∧ ((λ u, (User.name u, User.email u)) <$> users db)
      `prefix_of` ((λ u, (User.name u, User.email u)) <$> users db').
Proof.
  intros db'. subst db'.
  destruct (exec_writes bcrypt_hash bcrypt_compare castObjectId weekdayShort v env c db)
    as [|u Hfresh|i u hashed Hi| |]; simpl;
    repeat split; try done; try (by apply prefix_app_r).
  - rewrite fmap_app. by apply prefix_app_r.
  - rewrite list_fmap_insert. simpl.
    rewrite list_insert_id; [done|]. by rewrite list_lookup_fmap, Hi.
Qed.

(** ** Runs of the service *)

Lemma write_keeps_seeded castObjectId weekdayShort v db db' :
  Write castObjectId weekdayShort v db db' →
  (doctors db = [] ∨ ∃ newId, doctors db = imap (λ i d, d (newId i)) (seed v)) →
  (doctors db' = [] ∨ ∃ newId, doctors db' = imap (λ i d, d (newId i)) (seed v)).
Proof.
  destruct 1 as [| | |newId Hempty|]; simpl; try done.
  intros _. right. exists newId. by rewrite Hempty.
Qed.

(** X4. In every store the service reaches from the empty one, by whatever
    calls in whatever order, no two appointments share (doctorId, date,
    time), no two users share an email, every appointment passes the booking
    checks against the stored doctors, and the doctor collection is empty or
    holds exactly one copy of the seed list. *)
Theorem reachable_stores (bcrypt_hash : string → string → string)
    (bcrypt_compare : string → string → bool)
    (castObjectId : string → option ObjectId) (weekdayShort : string → string)
    (v : Deployment) (calls : list (Env * Call)) :
  let db :=
    execs bcrypt_hash bcrypt_compare castObjectId weekdayShort v calls emptyDB in
  slots_distinct db
  ∧ emails_distinct db
  ∧ appointments_valid castObjectId weekdayShort db
  ∧ (doctors db = [] ∨ ∃ newId, doctors db = imap (λ i d, d (newId i)) (seed v)).
Proof.
  intros db. subst db.
  assert (slots_distinct emptyDB ∧ emails_distinct emptyDB
          ∧ appointments_valid castObjectId weekdayShort emptyDB
          ∧ (doctors emptyDB = []
             ∨ ∃ newId, doctors emptyDB = imap (λ i d, d (newId i)) (seed v))) as Hinit.
  { split; [apply NoDup_nil_2|]. split; [apply NoDup_nil_2|].
    split; [apply Forall_nil_2 | by left]. }
  revert Hinit. generalize emptyDB as db.
  induction calls as [|[env c] calls IH]; intros db Hdb; [done|].
  simpl. apply IH. destruct Hdb as (Hs & He & Ha & Hd).
  pose proof (exec_writes bcrypt_hash bcrypt_compare castObjectId weekdayShort v env c db) as Hw.
  split; [by eapply write_keeps_slots_distinct|].
  split; [by eapply write_keeps_emails_distinct|].
  split; [by eapply write_keeps_appointments_valid|].
  by eapply write_keeps_seeded.
Qed.

(** ** Accounts: how the routes compose *)

Lemma user_of_appended db u :
  user_of db (User.email u) = None →
  user_of (mkDB (users db ++ [u]) (doctors db) (appointments db)) (User.email u)
    = Some (List.length (users db), u).
Proof.
  unfold user_of. simpl. intros Hnone.
  apply list_find_Some. split; [|split; [done|]].
  - rewrite lookup_app_r by done. by rewrite Nat.sub_diag.
  - intros j y Hj Hlt. rewrite lookup_app_l in Hj by done.
    apply list_find_None in Hnone. rewrite Forall_forall in Hnone.
    apply Hnone. by eapply list_elem_of_lookup_2.
Qed.

Lemma user_of_updated db email i u hashed :
  user_of db email = Some (i, u) →
  user_of (mkDB (<[i := User.mk (User.name u) (User.email u) hashed]> (users db))
             (doctors db) (appointments db)) email
    = Some (i, User.mk (User.name u) (User.email u) hashed).
Proof.
  unfold user_of. simpl. intros (Hi & Hu & Hleast)%list_find_Some.
  apply list_find_Some. split; [|split; [done|]].
  - apply list_lookup_insert_eq. by eapply lookup_lt_Some.
  - intros j y Hj Hlt. rewrite list_lookup_insert_ne in Hj by lia.
    by eapply Hleast.
Qed.

(** X5. A user who has just registered under a fresh email signs in with
    any password that [bcrypt.compare] accepts against the hash
    [bcrypt.hash] made at registration, and gets back the name and email
    given at registration; any other password is answered 401. *)
Theorem register_then_signin (bcrypt_hash : string → string → string)
    (bcrypt_compare : string → string → bool) (env : Env)
    (b b' : gmap string string) (db : DB) (p q : string) :
  (∀ u, u ∈ users db → User.email u ≠ b !! "email") →
  b !! "password" = Some p →
  b' !! "email" = b !! "email" → b' !! "password" = Some q →
  let db1 := (run (register bcrypt_hash env b) db).2 in
  let hashed := bcrypt_hash p (salt env) in
  (bcrypt_compare q hashed = true →
     (run (signin bcrypt_compare b') db1).1
       = Some (mkResponse 200
                 (Json (JObj [ ("message", JStr "Sign-in successful");
                               ("user", JObj (member "name" (b !! "name") ++
                                              member "email" (b !! "email"))) ]))))
  ∧ (bcrypt_compare q hashed = false →
     (run (signin bcrypt_compare b') db1).1
       = Some (mkResponse 401 (message "Invalid email or password"))).
Proof.
  intros Hfresh%user_of_None Hp Hemail Hq db1 hashed. subst db1 hashed.
  rewrite (register_new bcrypt_hash env b db p) by done. simpl.
  set (u := User.mk (b !! "name") (b !! "email") (bcrypt_hash p (salt env))).
  pose proof (user_of_appended db u Hfresh) as Hu. simpl in Hu.
  rewrite <-Hemail in Hu.
  rewrite (signin_known bcrypt_compare b' _ _ u q Hu Hq). simpl.
  split; intros ->; done.
Qed.

Lemma register_then_signin_witness :
  let db1 := (run (register demo_hash demo_env
                     (json_body [ ("name", "Meera"); ("email", "meera@example.org");
                                  ("password", "tr0ub4dor") ])) users_db).2 in
  (run (signin demo_compare (credentials "meera@example.org" "tr0ub4dor")) db1).1
    = Some (mkResponse 200
              (Json (JObj [ ("message", JStr "Sign-in successful");
                            ("user", JObj [ ("name", JStr "Meera");
                                            ("email", JStr "meera@example.org") ]) ])))
  ∧ (run (signin demo_compare (credentials "meera@example.org" "tr0ub4dor3")) db1).1
    = Some (mkResponse 401 (message "Invalid email or password")).
Proof.
  intros db1. subst db1. split.
  - apply (proj1 (register_then_signin demo_hash demo_compare demo_env
                    (json_body [ ("name", "Meera"); ("email", "meera@example.org");
                                 ("password", "tr0ub4dor") ])
                    (credentials "meera@example.org" "tr0ub4dor") users_db
                    "tr0ub4dor" "tr0ub4dor"
                    ltac:(apply user_of_None; reflexivity)
                    eq_refl eq_refl eq_refl)).
    vm_compute. reflexivity.
  - apply (proj2 (register_then_signin demo_hash demo_compare demo_env
                    (json_body [ ("name", "Meera"); ("email", "meera@example.org");
                                 ("password", "tr0ub4dor") ])
                    (credentials "meera@example.org" "tr0ub4dor3") users_db
                    "tr0ub4dor" "tr0ub4dor3"
                    ltac:(apply user_of_None; reflexivity)
                    eq_refl eq_refl eq_refl)).
    vm_compute. reflexivity.
Defined.

(** X6. After a password reset the account answers to the new hash alone:
    sign-in under the same email is accepted exactly for the passwords that
    [bcrypt.compare] accepts against the hash of the new password, whatever
    the old hash was, and it returns the name and email stored before. *)
Theorem reset_then_signin (bcrypt_hash : string → string → string)
    (bcrypt_compare : string → string → bool) (v : Deployment) (env : Env)
    (b b' : gmap string string) (db : DB) (i : nat) (u : User.t) (p q : string) :
  (v = Standalone → truthy (b !! "email") ∧ truthy (b !! "password")) →
  user_of db (b !! "email") = Some (i, u) →
  b !! "password" = Some p →
  b' !! "email" = b !! "email" → b' !! "password" = Some q →
  let db1 := (run (resetpassword bcrypt_hash v env b) db).2 in
  let hashed := bcrypt_hash p (salt env) in
  (bcrypt_compare q hashed = true →
     (run (signin bcrypt_compare b') db1).1
       = Some (mkResponse 200
                 (Json (JObj [ ("message", JStr "Sign-in successful");
                               ("user", JObj (member "name" (User.name u) ++
                                              member "email" (User.email u))) ]))))
  ∧ (bcrypt_compare q hashed = false →
     (run (signin bcrypt_compare b') db1).1
       = Some (mkResponse 401 (message "Invalid email or password"))).
Proof.
  intros Hg%reset_guard_passed Hu Hp Hemail Hq db1 hashed. subst db1 hashed.
  rewrite (reset_known bcrypt_hash env b db v i u p) by done. simpl.
  pose proof (user_of_updated db (b !! "email") i u (bcrypt_hash p (salt env)) Hu)
    as Hu'.
  rewrite <-Hemail in Hu'.
  rewrite (signin_known bcrypt_compare b' _ _ _ q Hu' Hq). simpl.
  split; intros ->; done.
Qed.

Lemma reset_then_signin_witness :
  let db1 := (run (resetpassword demo_hash Standalone demo_env
                     (credentials "asha@example.org" "n3w-pass")) users_db).2 in
  (run (signin demo_compare (credentials "asha@example.org" "n3w-pass")) db1).1
    = Some (mkResponse 200
              (Json (JObj [ ("message", JStr "Sign-in successful");
                            ("user", JObj [ ("name", JStr "Asha");
                                            ("email", JStr "asha@example.org") ]) ])))
  ∧ (run (signin demo_compare (credentials "asha@example.org" "hunter2")) db1).1
    = Some (mkResponse 401 (message "Invalid email or password")).
Proof.
  intros db1. subst db1. split.
  - apply (proj1 (reset_then_signin demo_hash demo_compare Standalone demo_env
                    (credentials "asha@example.org" "n3w-pass")
                    (credentials "asha@example.org" "n3w-pass") users_db
                    0%nat asha "n3w-pass" "n3w-pass"
                    (λ _, conj I I) eq_refl eq_refl eq_refl eq_refl)).
    vm_compute. reflexivity.
  - apply (proj2 (reset_then_signin demo_hash demo_compare Standalone demo_env
                    (credentials "asha@example.org" "n3w-pass")
                    (credentials "asha@example.org" "hunter2") users_db
                    0%nat asha "n3w-pass" "hunter2"
                    (λ _, conj I I) eq_refl eq_refl eq_refl eq_refl)).
    vm_compute. reflexivity.
Defined.

(** X7. [POST /signin] does not tell an unknown email from a wrong
    password: whatever the requests and the stores, any two 401 answers of
    the route are the same response. *)
Theorem signin_refusals_alike (bcrypt_compare : string → string → bool)
    (b1 b2 : gmap string string) (db1 db2 : DB) (r1 r2 : Response) :
  (run (signin bcrypt_compare b1) db1).1 = Some r1 → status r1 = 401%nat →
  (run (signin bcrypt_compare b2) db2).1 = Some r2 → status r2 = 401%nat →
  r1 = r2.
Proof.
  assert (∀ b db r, (run (signin bcrypt_compare b) db).1 = Some r →
                    status r = 401%nat →
                    r = mkResponse 401 (message "Invalid email or password")) as H.
  { intros b db r. destruct (user_of db (b !! "email")) as [[i u]|] eqn:Hu.
    - destruct (b !! "password") as [p|] eqn:Hp.
      + rewrite (signin_known _ _ _ i u p) by done. simpl.
        destruct (bcrypt_compare p (User.password u)); intros [= <-]; done.
      + rewrite (signin_no_password _ _ _ i u) by done. intros [= <-]. done.
    - rewrite signin_unknown by done. by intros [= <-]. }
  intros H1 Hs1 H2 Hs2. rewrite (H b1 db1 r1), (H b2 db2 r2); done.
Qed.

Lemma signin_refusals_alike_witness :
  ∃ r1 r2,
    (run (signin demo_compare (credentials "nobody@example.org" "hunter2")) users_db).1
      = Some r1
    ∧ (run (signin demo_compare (credentials "asha@example.org" "hunter3")) users_db).1
      = Some r2
    ∧ r1 = r2.
Proof.
  eexists _, _. split; [reflexivity|]. split; [reflexivity|].
  apply (signin_refusals_alike demo_compare
           (credentials "nobody@example.org" "hunter2")
           (credentials "asha@example.org" "hunter3") users_db users_db);
    reflexivity.
Defined.

(** X8. A sign-in request that carries no password is answered 500 when the
    email is registered and 401 when it is not: [bcrypt.compare] is reached,
    and throws, only for a registered email. *)
Theorem signin_without_password (bcrypt_compare : string → string → bool)
    (b : gmap string string) (db : DB) :
  b !! "password" = None →
  ((∃ u, u ∈ users db ∧ User.email u = b !! "email") →
     run (signin bcrypt_compare b) db
       = (Some (mkResponse 500 (message "Server error")), db))
  ∧ ((∀ u, u ∈ users db → User.email u ≠ b !! "email") →
     run (signin bcrypt_compare b) db
       = (Some (mkResponse 401 (message "Invalid email or password")), db)).
Proof.
  intros Hp. split.
  - intros (i & u & Hu)%user_of_exists. by apply (signin_no_password _ _ _ i u).
  - intros Hnone%user_of_None. by apply signin_unknown.
Qed.

Lemma signin_without_password_witness :
  status <$> (run (signin demo_compare (json_body [("email", "asha@example.org")]))
                users_db).1 = Some 500%nat
  ∧ status <$> (run (signin demo_compare (json_body [("email", "nobody@example.org")]))
                  users_db).1 = Some 401%nat.
Proof.
  split.
  - rewrite (proj1 (signin_without_password demo_compare
                      (json_body [("email", "asha@example.org")]) users_db eq_refl)).
    + reflexivity.
    + exists asha. split; [repeat constructor | reflexivity].
  - rewrite (proj2 (signin_without_password demo_compare
                      (json_body [("email", "nobody@example.org")]) users_db eq_refl)).
    + reflexivity.
    + apply user_of_None. reflexivity.
Defined.

(** X9. The account routes write only when they succeed: a registration
    answered anything but 201 and a reset answered anything but 200 leave
    the store exactly as it was, whether the request was refused (409, 400,
    404) or failed in [bcrypt] (500). *)
Theorem account_failures_write_nothing (bcrypt_hash : string → string → string)
    (v : Deployment) (env : Env) (b : gmap string string) (db : DB) :
  (status <$> (run (register bcrypt_hash env b) db).1 ≠ Some 201%nat →
     (run (register bcrypt_hash env b) db).2 = db)
  ∧ (status <$> (run (resetpassword bcrypt_hash v env b) db).1 ≠ Some 200%nat →
     (run (resetpassword bcrypt_hash v env b) db).2 = db).
Proof.
  split.
  - destruct (user_of db (b !! "email")) as [[i u]|] eqn:Hu.
    + by rewrite (register_exists _ _ _ _ i u).
    + destruct (b !! "password") as [p|] eqn:Hp.
      * by rewrite (register_new _ _ _ _ p).
      * by rewrite register_no_password.
  - destruct (reset_fields_missing v (b !! "email") (b !! "password")) eqn:Hg.
    { unfold resetpassword. by rewrite Hg. }
    destruct (user_of db (b !! "email")) as [[i u]|] eqn:Hu.
    + destruct (b !! "password") as [p|] eqn:Hp; rewrite <-Hp in Hg.
      * by rewrite (reset_known _ _ _ _ _ i u p).
      * intros _. unfold resetpassword. rewrite Hg. unfold_handler.
        unfold user_of in Hu. by rewrite Hu, Hp.
    + by rewrite reset_unknown.
Qed.

Lemma account_failures_write_nothing_witness :
  (run (register demo_hash demo_env (json_body [("email", "meera@example.org")]))
     users_db).2 = users_db
  ∧ (run (resetpassword demo_hash Serverless demo_env
            (json_body [("email", "asha@example.org")])) users_db).2 = users_db.
Proof.
  split.
  - apply (proj1 (account_failures_write_nothing demo_hash Standalone demo_env
                    (json_body [("email", "meera@example.org")]) users_db)).
    vm_compute. discriminate.
  - apply (proj2 (account_failures_write_nothing demo_hash Serverless demo_env
                    (json_body [("email", "asha@example.org")]) users_db)).
    vm_compute. discriminate.
Defined.

(** ** Bookings: what decides the answer *)

(** X10. A booking is answered 201 exactly when all five required members
    are present, [doctorId] casts to the identifier of a stored doctor, the
    doctor has a window for the weekday of the date, the time lies in the
    first such window, and no stored appointment has the same doctor, date
    and time. *)
Theorem booking_succeeds_iff (castObjectId : string → option ObjectId)
    (weekdayShort : string → string) (v : Deployment)
    (env : Env) (b : gmap string string) (db : DB) :
  status <$> (run (appointment castObjectId weekdayShort v env b) db).1
    = Some 201%nat
  ↔ fields_present b
    ∧ ∃ oid d w, castObjectId (str (b !! "doctorId")) = Some oid
                 ∧ doctor_of db oid = Some d
                 ∧ window_of d (day_of weekdayShort b) = Some w
                 ∧ in_window (str (b !! "time")) w
                 ∧ taken db (requested_slot oid b) = None.
Proof.
  split.
  - destruct (book_cases castObjectId weekdayShort v env b db)
      as [| | | | | |oid d w Hf Hc Hd Hw Ht Hfree];
      simpl; intros [=].
    split; [done|]. exists oid, d, w. by rewrite <-isTimeValid_in_window.
  - intros (Hf & oid & d & w & Hc & Hd & Hw & Ht%isTimeValid_in_window & Hfree).
    rewrite book_past_guard by done. by rewrite Hc, Hd, Hw, Ht, Hfree.
Qed.

(** X11. The answer to a booking depends on the five required members and
    on the store only: [doctorName] and [service] are stored as sent and are
    never compared with the doctor's record, and the clock plays no part. *)
Theorem booking_reads_required_members (castObjectId : string → option ObjectId)
    (weekdayShort : string → string)
    (v : Deployment) (env env' : Env) (b b' : gmap string string) (db : DB) :
  (∀ k, k ∈ required_keys → b !! k = b' !! k) →
  (run (appointment castObjectId weekdayShort v env b) db).1
  = (run (appointment castObjectId weekdayShort v env' b') db).1.
Proof.
  intros Hkeys.
  assert (b !! "doctorId" = b' !! "doctorId") as H1
    by (apply Hkeys; unfold required_keys; repeat constructor).
  assert (b !! "userName" = b' !! "userName") as H2
    by (apply Hkeys; unfold required_keys; repeat constructor).
  assert (b !! "userEmail" = b' !! "userEmail") as H3
    by (apply Hkeys; unfold required_keys; repeat constructor).
  assert (b !! "date" = b' !! "date") as H4
    by (apply Hkeys; unfold required_keys; repeat constructor).
  assert (b !! "time" = b' !! "time") as H5
    by (apply Hkeys; unfold required_keys; repeat constructor).
  assert (fields_present b ↔ fields_present b') as Hf
    by (unfold fields_present; by rewrite H1, H2, H3, H4, H5).
  destruct (decide (fields_present b)) as [Hb|Hb].
  - rewrite !book_past_guard by (done || by apply Hf).
    unfold requested_slot, day_of. rewrite <-H1, <-H4, <-H5.
    destruct (castObjectId _) as [oid|]; [|done].
    destruct (doctor_of db _) as [d|]; [|done].
    destruct (window_of d _) as [w|]; [|done].
    destruct (isTimeValid _ w); [|done].
    by destruct (taken db _).
  - rewrite !book_missing; [done| |done]. by rewrite <-Hf.
Qed.

Lemma booking_reads_required_members_witness :
  (run (appointment castObjectId_hex weekdayShort_utc Standalone demo_env
          (<["doctorName" := "Dr. Nobody"]> (demo_booking "11:00"))) demo_db).1
  = Some (mkResponse 201 (message "Appointment booked successfully")).
Proof.
  rewrite <-(booking_reads_required_members castObjectId_hex weekdayShort_utc
               Standalone demo_env
               demo_env (demo_booking "11:00")
               (<["doctorName" := "Dr. Nobody"]> (demo_booking "11:00")) demo_db).
  - reflexivity.
  - intros k Hk. unfold required_keys in Hk.
    repeat (apply elem_of_cons in Hk as [->|Hk]; [reflexivity|]).
    by apply elem_of_nil in Hk.
Defined.

Lemma taken_other db a sl :
  Appointment.slot a ≠ sl →
  taken (mkDB (users db) (doctors db) (appointments db ++ [a])) sl = taken db sl.
Proof.
  destruct sl as [[id date] time]. unfold taken. simpl. intros Hne.
  assert (same_slot id date time a = false) as Ha.
  { destruct (same_slot id date time a) eqn:Heq; [|done].
    by apply same_slot_spec in Heq. }
  destruct (find (same_slot id date time) (appointments db)) as [x|] eqn:Hfind.
  - by apply find_app_Some.
  - rewrite find_app_None by done. simpl. by rewrite Ha.
Qed.

(** X12. A booking blocks its own (doctor, date, time) and nothing else,
    the doctor being the [ObjectId] that [doctorId] casts to: after it, a
    request that does not come to the same doctor, date and time is answered
    as it would have been before.  Another spelling of the same identifier
    is the same doctor. *)
Theorem booking_blocks_only_its_slot (castObjectId : string → option ObjectId)
    (weekdayShort : string → string)
    (v : Deployment) (env env' : Env) (b b' : gmap string string) (db : DB)
    (oid : ObjectId) :
  status <$> (run (appointment castObjectId weekdayShort v env b) db).1
    = Some 201%nat →
  castObjectId (str (b !! "doctorId")) = Some oid →
  (∀ oid', castObjectId (str (b' !! "doctorId")) = Some oid' →
           requested_slot oid' b' ≠ requested_slot oid b) →
  (run (appointment castObjectId weekdayShort v env' b')
     (run (appointment castObjectId weekdayShort v env b) db).2).1
  = (run (appointment castObjectId weekdayShort v env' b') db).1.
Proof.
  intros Hok Hc Hne.
  destruct (book_success castObjectId weekdayShort v env b db Hok)
    as (oid0 & Hc0 & ->).
  assert (oid0 = oid) as -> by congruence.
  destruct (decide (fields_present b')) as [Hb|Hb].
  - rewrite !book_past_guard by done.
    destruct (castObjectId (str (b' !! "doctorId"))) as [oid'|] eqn:Hc'; [|done].
    rewrite taken_other by (rewrite booked_slot; intros Heq; by apply (Hne oid')).
    change (doctor_of (mkDB (users db) (doctors db)
                         (appointments db ++ [booked oid env b])))
      with (doctor_of db).
    destruct (doctor_of db _) as [d|]; [|done].
    destruct (window_of d _) as [w|]; [|done].
    destruct (isTimeValid _ w); [|done].
    by destruct (taken db _).
  - by rewrite !book_missing.
Qed.

Lemma booking_blocks_only_its_slot_witness :
  (run (appointment castObjectId_hex weekdayShort_utc Standalone demo_env
          (<["doctorId" := "65A000000000000000000001"]> (demo_booking "11:30")))
     (run (appointment castObjectId_hex weekdayShort_utc Standalone demo_env
             (demo_booking "11:00"))
        demo_db).2).1
  = Some (mkResponse 201 (message "Appointment booked successfully")).
Proof.
  rewrite (booking_blocks_only_its_slot castObjectId_hex weekdayShort_utc Standalone
             demo_env demo_env (demo_booking "11:00")
             (<["doctorId" := "65A000000000000000000001"]> (demo_booking "11:30"))
             demo_db id_nair).
  - reflexivity.
  - reflexivity.
  - reflexivity.
  - intros oid' [= <-]. vm_compute. discriminate.
Defined.

(** X13. A booking made at a clock reading later than the creation time of
    every stored appointment comes first in [GET /appointments], followed by
    the appointments stored before. *)
Theorem latest_booking_listed_first (castObjectId : string → option ObjectId)
    (weekdayShort : string → string)
    (v : Deployment) (env : Env) (b : gmap string string) (db : DB) :
  status <$> (run (appointment castObjectId weekdayShort v env b) db).1
    = Some 201%nat →
  (∀ a, a ∈ appointments db → (Appointment.createdAt a < now env)%Z) →
  ∃ oid rest,
    castObjectId (str (b !! "doctorId")) = Some oid
    ∧ (run getAppointments
         (run (appointment castObjectId weekdayShort v env b) db).2).1
      = Some (mkResponse 200 (AppointmentDocs (booked oid env b :: rest)))
    ∧ rest ≡ₚ appointments db.
Proof.
  intros Hok Hlater.
  destruct (book_success castObjectId weekdayShort v env b db Hok)
    as (oid & Hc & ->).
  exists oid.
  rewrite run_getAppointments. simpl.
  set (a := booked oid env b).
  pose proof (merge_sort_Permutation newer_first (appointments db ++ [a])) as Hperm.
  pose proof (StronglySorted_merge_sort newer_first (appointments db ++ [a])) as Hsorted.
  destruct (merge_sort newer_first (appointments db ++ [a])) as [|x rest].
  { apply Permutation_nil_l in Hperm. by destruct (appointments db). }
  apply StronglySorted_inv in Hsorted as [_ Hx]. rewrite Forall_forall in Hx.
  assert (x = a) as ->.
  { assert (x ∈ (appointments db ++ [a])%list) as Hin by (rewrite <-Hperm; left).
    apply elem_of_app in Hin as [Hin|Hin%list_elem_of_singleton]; [|done].
    assert (a ∈ x :: rest) as Ha.
    { rewrite Hperm. apply elem_of_app. right. by apply list_elem_of_singleton. }
    apply elem_of_cons in Ha as [Ha|Ha]; [done|].
    specialize (Hx a Ha). specialize (Hlater x Hin).
    unfold newer_first in Hx. subst a. simpl in Hx. lia. }
  exists rest. split; [done|]. split; [done|].
  apply (Permutation_cons_inv (a := a)).
  rewrite Hperm. by rewrite Permutation_app_comm.
Qed.

Lemma latest_booking_listed_first_witness :
  let at_ t := mkEnv "c2FsdA" t (newId demo_env) in
  let db1 := (run (appointment castObjectId_hex weekdayShort_utc Standalone (at_ 10)
                     (demo_booking "12:00")) demo_db).2 in
  ∃ rest,
    (run getAppointments
       (run (appointment castObjectId_hex weekdayShort_utc Standalone (at_ 20)
               (demo_booking "10:30"))
          db1).2).1
    = Some (mkResponse 200
              (AppointmentDocs (booked id_nair (at_ 20) (demo_booking "10:30") :: rest)))
    ∧ rest ≡ₚ [booked id_nair (at_ 10) (demo_booking "12:00")].
Proof.
  intros at_ db1. subst db1.
  destruct (latest_booking_listed_first castObjectId_hex weekdayShort_utc Standalone
              (at_ 20) (demo_booking "10:30")
              (run (appointment castObjectId_hex weekdayShort_utc Standalone (at_ 10)
                      (demo_booking "12:00")) demo_db).2)
    as (oid & rest & [= <-] & Hlist & Hrest).
  - reflexivity.
  - intros a Ha. change (a ∈ [booked id_nair (at_ 10) (demo_booking "12:00")]) in Ha.
    apply list_elem_of_singleton in Ha as ->. simpl. lia.
  - exists rest. split; [exact Hlist | exact Hrest].
Defined.

(** ** The time comparison on ["HH:MM"] strings *)

Lemma js_lt_cons x a y b :
  js_lt (String x a) (String y b)
  = if (N_of_ascii x <? N_of_ascii y)%N then true
    else if (N_of_ascii y <? N_of_ascii x)%N then false
    else js_lt a b.
Proof. reflexivity. Qed.

Lemma N_of_digit_char n : (n < 10)%N → N_of_ascii (digit_char n) = (48 + n)%N.
Proof. intros Hn. unfold digit_char. apply N_ascii_embedding. lia. Qed.

Lemma js_le_hhmm h1 m1 h2 m2 :
  (h1 < 100)%N → (m1 < 60)%N → (h2 < 100)%N → (m2 < 60)%N →
  js_le (hhmm h1 m1) (hhmm h2 m2) = true ↔ (minutes h1 m1 ≤ minutes h2 m2)%N.
Proof.
  intros Hh1 Hm1 Hh2 Hm2. unfold js_le, hhmm, minutes.
  rewrite negb_true_iff, !js_lt_cons.
  assert (h1 / 10 < 10 ∧ h1 mod 10 < 10 ∧ m1 / 10 < 10 ∧ m1 mod 10 < 10
          ∧ h2 / 10 < 10 ∧ h2 mod 10 < 10 ∧ m2 / 10 < 10 ∧ m2 mod 10 < 10)%N
    as (? & ? & ? & ? & ? & ? & ? & ?).
  { repeat split; first [by apply N.mod_lt | apply N.Div0.div_lt_upper_bound; lia]. }
  rewrite !N_of_digit_char by done.
  pose proof (N.Div0.div_mod h1 10). pose proof (N.Div0.div_mod h2 10).
  pose proof (N.Div0.div_mod m1 10). pose proof (N.Div0.div_mod m2 10).
  change (js_lt "" "") with false. change (N_of_ascii ":") with 58%N.
  generalize dependent (h1 / 10)%N. generalize dependent (h1 mod 10)%N.
  generalize dependent (h2 / 10)%N. generalize dependent (h2 mod 10)%N.
  generalize dependent (m1 / 10)%N. generalize dependent (m1 mod 10)%N.
  generalize dependent (m2 / 10)%N. generalize dependent (m2 mod 10)%N.
  intros.
  repeat match goal with
         | |- context [(?x <? ?y)%N] => destruct (N.ltb_spec x y)
         end; split; (done || lia).
Qed.

(** X14. On zero-padded ["HH:MM"] strings the string comparison of the
    handler is the comparison of the times of day: a request at [ht:mt] passes
    the window check exactly when its minute of the day lies between those of
    the window's start and end, both included. *)
Theorem padded_times_compare_as_times (day : string) (hs ms he me ht mt : N) :
  (hs < 100)%N → (ms < 60)%N → (he < 100)%N → (me < 60)%N →
  (ht < 100)%N → (mt < 60)%N →
  isTimeValid (hhmm ht mt) (Slot.mk day (hhmm hs ms) (hhmm he me)) = true
  ↔ (minutes hs ms ≤ minutes ht mt ≤ minutes he me)%N.
Proof.
  intros. unfold isTimeValid. simpl.
  change (js_ge (hhmm ht mt) (hhmm hs ms)) with (js_le (hhmm hs ms) (hhmm ht mt)).
  rewrite andb_true_iff, !js_le_hhmm by done. done.
Qed.

Lemma padded_times_compare_as_times_witness :
  isTimeValid "09:05" (Slot.mk "Sat" "09:00" "13:00") = true.
Proof.
  apply (padded_times_compare_as_times "Sat" 9 0 13 0 9 5); vm_compute; done.
Defined.

(** The string order of the handler is a total order. *)
Lemma lex_le_refl a : lex_le a a.
Proof. induction a; by constructor. Qed.

Lemma lex_le_trans a b c : lex_le a b → lex_le b c → lex_le a c.
Proof.
  intros Hab. revert c. induction Hab as [b|x a y b Hlt|x a b Hab IH]; intros c Hbc.
  - constructor.
  - inversion Hbc; subst.
    + apply lex_le_less. lia.
    + by apply lex_le_less.
  - inversion Hbc; subst.
    + by apply lex_le_less.
    + apply lex_le_same. by apply IH.
Qed.

Lemma lex_le_antisym a b : lex_le a b → lex_le b a → a = b.
Proof.
  induction 1 as [b|x a y b Hlt|x a b Hab IH]; intros Hba.
  - by inversion Hba.
  - inversion Hba; subst; lia.
  - inversion Hba; subst; [lia|]. f_equal. by apply IH.
Qed.

(** X15. The service does not check that a window starts before it ends.
    A window whose end lies lexically before its start admits no time at
    all, so every complete request that reaches it is answered 400; a window
    whose start and end coincide admits that one time only. *)
Theorem degenerate_windows (castObjectId : string → option ObjectId)
    (weekdayShort : string → string) (v : Deployment)
    (env : Env) (b : gmap string string) (db : DB) (oid : ObjectId)
    (d : Doctor.t) (w : Slot.t) :
  fields_present b →
  castObjectId (str (b !! "doctorId")) = Some oid →
  doctor_of db oid = Some d →
  window_of d (day_of weekdayShort b) = Some w →
  (js_lt (Slot.endTime w) (Slot.startTime w) = true →
     run (appointment castObjectId weekdayShort v env b) db
       = (Some (mkResponse 400 (message (msg_window v (day_of weekdayShort b) w))), db))
  ∧ (Slot.startTime w = Slot.endTime w →
     (status <$> (run (appointment castObjectId weekdayShort v env b) db).1 = Some 400%nat
      ↔ str (b !! "time") ≠ Slot.startTime w)).
Proof.
  intros Hf Hc Hd Hw. rewrite book_past_guard by done. rewrite Hc, Hd, Hw. split.
  - intros Hinv.
    assert (isTimeValid (str (b !! "time")) w = false) as ->; [|done].
    apply isTimeValid_outside. intros [Hs He].
    pose proof (lex_le_trans _ _ _ Hs He) as Hse.
    apply js_lt_false_lex_le in Hse. congruence.
  - intros Heq. destruct (isTimeValid (str (b !! "time")) w) eqn:Ht.
    + apply isTimeValid_in_window in Ht as [Hs He]. rewrite <-Heq in He.
      assert (Slot.startTime w = str (b !! "time")) as Hsame
        by (by apply lex_le_antisym).
      destruct (taken db _); simpl; split; intros; congruence.
    + simpl. split; [|done]. intros _ Hsame.
      apply isTimeValid_outside in Ht. apply Ht. unfold in_window.
      rewrite <-Heq, Hsame. split; apply lex_le_refl.
Qed.

Lemma degenerate_windows_witness :
  run (appointment castObjectId_hex weekdayShort_utc Standalone demo_env
         (<["doctorId" := id_night]> (demo_booking "23:00"))) night_db
  = (Some (mkResponse 400
             (message "Doctor is available on Mon only between 22:00 and 06:00")),
     night_db).
Proof.
  destruct (degenerate_windows castObjectId_hex weekdayShort_utc Standalone demo_env
              (<["doctorId" := id_night]> (demo_booking "23:00")) night_db
              id_night dr_night (Slot.mk "Mon" "22:00" "06:00")) as [Hinverted _].
  - vm_compute. tauto.
  - reflexivity.
  - reflexivity.
  - reflexivity.
  - rewrite Hinverted by reflexivity. vm_compute. reflexivity.
Defined.

(** ** Seeded doctors *)

Lemma doctor_of_member db d :
  NoDup (Doctor._id <$> doctors db) → d ∈ doctors db →
  doctor_of db (Doctor._id d) = Some d.
Proof.
  unfold doctor_of. induction (doctors db) as [|x l IH]; simpl.
  - intros _ Hin. by apply elem_of_nil in Hin.
  - intros [Hx Hl]%NoDup_cons Hin. apply elem_of_cons in Hin as [->|Hin].
    + by rewrite String.eqb_refl.
    + destruct (String.eqb_spec (Doctor._id x) (Doctor._id d)) as [Heq|Hne].
      * destruct Hx. rewrite Heq. apply list_elem_of_fmap. by exists d.
      * by apply IH.
Qed.

Lemma seed_ids v newId :
  Doctor._id <$> imap (λ i d, d (newId i)) (seed v)
  = newId <$> seq 0 (List.length (seed v)).
Proof. by destruct v. Qed.

(** X16. After [preloadDoctors] has filled an empty collection,
    [GET /doctors] lists the seeded doctors in the order of the seed list,
    and -- provided [insertMany] gave them distinct identifiers --
    [Doctor.findById] resolves the identifier of each to that doctor. *)
Theorem seeded_doctors_resolve (v : Deployment) (env : Env) (db : DB) :
  doctors db = [] →
  NoDup (newId env <$> seq 0 (List.length (seed v))) →
  let db' := (run (preloadDoctors v env) db).2 in
  (run getDoctors db').1
    = Some (mkResponse 200 (DoctorDocs (imap (λ i d, d (newId env i)) (seed v))))
  ∧ List.length (doctors db') = List.length (seed v)
  ∧ ∀ d, d ∈ doctors db' → doctor_of db' (Doctor._id d) = Some d.
Proof.
  intros Hempty Hids db'.
  assert (db' = mkDB (users db) (imap (λ i d, d (newId env i)) (seed v))
                  (appointments db)) as ->.
  { subst db'. unfold_handler. rewrite Hempty. simpl. by rewrite Hempty. }
  split; [done|]. split.
  - simpl. by rewrite length_imap.
  - intros d Hd. apply doctor_of_member; [|done]. simpl. by rewrite seed_ids.
Qed.

Lemma seeded_doctors_resolve_witness :
  let db' := (run (preloadDoctors Standalone demo_env) emptyDB).2 in
  Doctor.name <$> doctor_of db' "65b000000000000000000003" = Some "Dr. Arun Das".
Proof.
  intros db'. subst db'.
  destruct (seeded_doctors_resolve Standalone demo_env emptyDB eq_refl)
    as (_ & _ & Hfind).
  - vm_compute.
    repeat (apply NoDup_cons; split;
            [rewrite ?elem_of_cons, ?elem_of_nil; intuition discriminate|]).
    apply NoDup_nil_2.
  - refine (f_equal (fmap Doctor.name)
              (Hfind (Doctor.mk "65b000000000000000000003" "Dr. Arun Das" "Dental Implants"
                        "Dental Implants"
                        [ Slot.mk "Sat" "09:00" "13:00";
                          Slot.mk "Sun" "09:00" "13:00" ]) _)).
    vm_compute. repeat constructor.
Defined.

(** ** Connection bootstrap *)

Lemma connectDB_calls_connected MONGO_URI outcomes :
  connectDB_calls MONGO_URI outcomes true = (true, []).
Proof.
  induction outcomes as [|c outcomes IH]; simpl; [done|]. by rewrite IH.
Qed.

Lemma connectDB_calls_no_uri MONGO_URI outcomes :
  ¬ truthy MONGO_URI →
  connectDB_calls MONGO_URI outcomes false
  = (false, replicate (List.length outcomes) LogMissingUri).
Proof.
  intros Huri. induction outcomes as [|c outcomes IH]; simpl; [done|].
  unfold connectDB. destruct (truthy MONGO_URI); [by destruct Huri|].
  simpl. by rewrite IH.
Qed.

(** X17. Over any series of requests to the serverless function, whatever
    the outcome of each connection attempt, [preloadDoctors] is started at
    most once, namely right after the first attempt that succeeds; from
    then on [connectDB] does nothing.  Without a [MONGO_URI] (unset or
    empty) no connection is ever tried, and each request only logs that it
    is missing.  The standalone server tries once, on the configured address
    or else the local default, and starts [preloadDoctors] only if that
    attempt succeeds. *)
Theorem preload_started_at_most_once (MONGO_URI : option string)
    (outcomes : list bool) :
  let r := connectDB_calls MONGO_URI outcomes false in
  (List.length (filter (λ e, e = StartPreload) r.2) ≤ 1)%nat
  ∧ (r.1 = true ↔ StartPreload ∈ r.2)
  ∧ (r.1 = true ↔ truthy MONGO_URI ∧ true ∈ outcomes)
  ∧ (∀ uri, Connect uri ∈ r.2 → truthy MONGO_URI ∧ uri = str MONGO_URI)
  ∧ (¬ truthy MONGO_URI →
     r = (false, replicate (List.length outcomes) LogMissingUri))
  ∧ (∀ connects,
       let boot := bootstrap MONGO_URI connects in
       head boot = Some (Connect (if truthy MONGO_URI then str MONGO_URI
                                  else default_uri))
       ∧ (StartPreload ∈ boot ↔ connects = true)).
Proof.
  intros r. subst r.
  split; [|split; [|split; [|split; [|split]]]].
  - induction outcomes as [|c outcomes IH]; simpl; [lia|].
    unfold connectDB. destruct (truthy MONGO_URI); simpl; [|exact IH].
    destruct c; simpl; [|exact IH].
    rewrite connectDB_calls_connected. simpl. lia.
  - induction outcomes as [|c outcomes IH]; simpl.
    { split; [done | by intros ?%elem_of_nil]. }
    unfold connectDB. destruct (truthy MONGO_URI); simpl.
    + destruct c; simpl.
      * rewrite connectDB_calls_connected. simpl.
        split; [intros _; repeat constructor | done].
      * rewrite IH. rewrite elem_of_cons. split; [by right | by intros [?|?]].
    + rewrite IH. rewrite elem_of_cons. split; [by right | by intros [?|?]].
  - induction outcomes as [|c outcomes IH]; simpl.
    { split; [done | by intros [_ ?%elem_of_nil]]. }
    unfold connectDB. destruct (truthy MONGO_URI) eqn:Huri; simpl.
    + destruct c; simpl.
      * rewrite connectDB_calls_connected. simpl.
        split; [intros _; split; [done | left] | done].
      * rewrite IH. rewrite elem_of_cons.
        split; [intros [? ?]; by split; [|right] | by intros [? [?|?]]].
    + rewrite IH. split; by intros [? ?].
  - intros uri. induction outcomes as [|c outcomes IH]; simpl.
    { by intros ?%elem_of_nil. }
    unfold connectDB. destruct (truthy MONGO_URI) eqn:Huri; simpl.
    + destruct c; simpl.
      * rewrite connectDB_calls_connected. simpl.
        rewrite !elem_of_cons, elem_of_nil. intros [[= ->]|[?|[?|?]]]; done.
      * rewrite elem_of_cons. intros [[= ->]|Hin]; [done|]. by apply IH.
    + rewrite elem_of_cons. intros [?|Hin]; [done|]. by apply IH.
  - apply connectDB_calls_no_uri.
  - intros connects boot. subst boot. unfold bootstrap. split; [done|].
    destruct connects; simpl.
    + split; [done | intros _; repeat constructor].
    + split; [|done]. rewrite !elem_of_cons, elem_of_nil. by intros [?|[?|?]].
Qed.

Lemma preload_started_at_most_once_witness :
  connectDB_calls (Some "mongodb://db.example.org/dental") [false; true; false; true] false
  = (true, [ Connect "mongodb://db.example.org/dental";
             Connect "mongodb://db.example.org/dental"; LogConnected; StartPreload ])
  ∧ (connectDB_calls (Some "") [true; true] false).1 = false.
Proof.
  split; [reflexivity|].
  destruct (connectDB_calls (Some "") [true; true] false).1 eqn:Hflag; [|done].
  apply (proj1 (proj1 (proj2 (proj2
           (preload_started_at_most_once (Some "") [true; true]))))) in Hflag
    as [Huri _].
  destruct Huri.
Defined.
